(** * Tickly: the background timer authority (src/background.js)

    A shallow embedding of the settings sanitizer and of the timer state
    machine of the Pomodoro extension, with the properties the
    specification states about them.

    Conventions of the embedding.
    - A JavaScript number is an exact rational, or one of NaN, +Infinity,
      -Infinity.  Every finite double is a rational and [<], [>], [===]
      and [Math.floor] on doubles agree with the rational ones; the
      rounding of arithmetic results to binary64 and the sign of zero are
      not represented.
    - The conversions between strings and numbers ([StringToNumber] and
      [Number::toString]) are the engine's own; they enter as a
      parameter, [Engine], and every theorem holds for every engine.
    - Values that arrive from storage or from a message are JSON-shaped
      ([jsval]); [JUndefined] stands for a missing key.
    - The module-level variables [settings] and [timerState], the keys of
      [chrome.storage.local] and the [pomodoro-end] alarm are the fields
      of one record, [World]; every function of the source that touches
      them is a function [World -> World].
    - Each call of [Date.now()] is an explicit argument. *)

From Stdlib Require Import ZArith QArith Qround Qminmax Lqa Lia List String Ascii DecimalString.
From stdpp Require Import base option gmap strings.

Import ListNotations.
Local Open Scope Z_scope.
Set Warnings "-register-all".

(** ** The JavaScript values the program manipulates *)

Module JS.

Inductive number : Type :=
| NaN
| PosInf
| NegInf
| Fin (q : Q).

Inductive jsval : Type :=
| JUndefined
| JNull
| JBool (b : bool)
| JNum (n : number)
| JStr (s : string)
| JArr (items : list jsval)
| JObj (fields : list (string * jsval)).

(** [Number.isFinite] on a value that is already a number. *)
Definition isFinite (n : number) : bool :=
  match n with Fin _ => true | _ => false end.

Definition Qlt_bool (a b : Q) : bool := negb (Qle_bool b a).

(** [a < b] on numbers; any comparison with NaN is false. *)
Definition lt (a b : number) : bool :=
  match a, b with
  | NaN, _ | _, NaN => false
  | Fin x, Fin y => Qlt_bool x y
  | NegInf, NegInf => false
  | NegInf, _ => true
  | PosInf, _ => false
  | Fin _, PosInf => true
  | Fin _, NegInf => false
  end.

(** [a > b] is [b < a]. *)
Definition gt (a b : number) : bool := lt b a.

(** [Math.floor] and [Math.max] on finite numbers. *)
Definition Math_floor (q : Q) : Z := Qfloor q.
Definition Math_max (a b : Q) : Q := if Qle_bool a b then b else a.

(** *** The engine's conversions

    [StringToNumber] reads a string as a number (white space, decimal
    and radix literals, [Infinity], rounding to the nearest double), and
    [Number::toString] prints one.  Neither is part of the program. *)
Record Engine : Type := {
  StringToNumber : string -> number;
  NumberToString : number -> string
}.

Fixpoint has_own_property (k : string) (fs : list (string * jsval)) : bool :=
  match fs with
  | [] => false
  | (k', _) :: fs' => String.eqb k k' || has_own_property k fs'
  end.

(** *** [String(value)], as the conversion of an object to a primitive
    uses it

    A plain object converts through its [toString] method.  A value that
    came through JSON holds no function, so an own property [toString]
    is not callable; the own or inherited [valueOf] gives no primitive,
    and the conversion ends in a TypeError ([None]).  Without an own
    [toString] the inherited one gives ["[object Object]"].  An array
    converts through [join(",")], in which [undefined] and [null] print
    as the empty string. *)
Fixpoint ToString (E : Engine) (v : jsval) : option string :=
  match v with
  | JUndefined => Some "undefined"
  | JNull => Some "null"
  | JBool b => Some (if b then "true" else "false")
  | JNum n => Some (NumberToString E n)
  | JStr s => Some s
  | JArr items =>
      (fix join (l : list jsval) : option string :=
         match l with
         | [] => Some ""
         | x :: l' =>
             s ← match x with
                 | JUndefined | JNull => Some ""
                 | _ => ToString E x
                 end;
             match l' with
             | [] => Some s
             | _ :: _ => rest ← join l'; Some (s +:+ "," +:+ rest)
             end
         end) items
  | JObj fs =>
      if has_own_property "toString" fs then None else Some "[object Object]"
  end.

(** *** [Number(value)]

    [undefined] is NaN, [null] is 0, booleans are 0 and 1, a string is
    read by the engine; an object or an array is first converted to a
    string, which may throw. *)
Definition ToNumber (E : Engine) (v : jsval) : option number :=
  match v with
  | JUndefined => Some NaN
  | JNull => Some (Fin 0)
  | JBool b => Some (Fin (if b then 1 else 0))
  | JNum n => Some n
  | JStr s => Some (StringToNumber E s)
  | JArr _ | JObj _ => s ← ToString E v; Some (StringToNumber E s)
  end.

(** *** [Boolean(value)]: the falsy values are [undefined], [null],
    [false], [0], [NaN] and the empty string. *)
Definition ToBoolean (v : jsval) : bool :=
  match v with
  | JUndefined | JNull => false
  | JBool b => b
  | JNum (Fin q) => negb (Qeq_bool q 0)
  | JNum NaN => false
  | JNum _ => true
  | JStr s => negb (String.eqb s "")
  | JArr _ | JObj _ => true
  end.

(** [v !== false]: strict inequality with the boolean literal. *)
Definition strict_ne_false (v : jsval) : bool :=
  match v with
  | JBool false => false
  | _ => true
  end.

(** *** Property access

    [lookup_field] is the own-property lookup of a plain object.  The
    keys this program reads are the names of the settings fields; none
    of them is an own or inherited property of a string, an array, a
    number or a boolean, so reading them there gives [undefined]. *)
Fixpoint lookup_field (k : string) (fs : list (string * jsval)) : jsval :=
  match fs with
  | [] => JUndefined
  | (k', v) :: fs' => if String.eqb k k' then v else lookup_field k fs'
  end.

Definition prop (o : jsval) (k : string) : jsval :=
  match o with
  | JObj fs => lookup_field k fs
  | _ => JUndefined
  end.

(** [o.k]: a TypeError ([None]) on [undefined] and [null]. *)
Definition member (o : jsval) (k : string) : option jsval :=
  match o with
  | JUndefined | JNull => None
  | _ => Some (prop o k)
  end.

(** [o?.k]: [undefined] on [undefined] and [null]. *)
Definition opt_member (o : jsval) (k : string) : jsval :=
  match o with
  | JUndefined | JNull => JUndefined
  | _ => prop o k
  end.

(** *** Object spread

    [{...a, ...b, k: v}] defines the properties from left to right; a
    later definition of an existing key replaces its value in place. *)
Fixpoint set_field (k : string) (v : jsval) (fs : list (string * jsval))
  : list (string * jsval) :=
  match fs with
  | [] => [(k, v)]
  | (k', v') :: fs' =>
      if String.eqb k k' then (k, v) :: fs' else (k', v') :: set_field k v fs'
  end.

Definition index_key (i : nat) : string :=
  NilEmpty.string_of_uint (Nat.to_uint i).

Fixpoint indexed {A} (f : A -> jsval) (i : nat) (l : list A) : list (string * jsval) :=
  match l with
  | [] => []
  | x :: l' => (index_key i, f x) :: indexed f (S i) l'
  end.

(** The own enumerable properties a spread copies: the fields of an
    object, the elements of an array and the characters of a string
    under their indices, nothing for the other values. *)
Definition own_properties (v : jsval) : list (string * jsval) :=
  match v with
  | JObj fs => fs
  | JArr items => indexed (fun x => x) 0 items
  | JStr s => indexed (fun c => JStr (String c EmptyString)) 0 (list_ascii_of_string s)
  | _ => []
  end.

Definition spread (onto : list (string * jsval)) (v : jsval) : list (string * jsval) :=
  fold_left (fun acc kv => set_field (fst kv) (snd kv) acc) (own_properties v) onto.

End JS.
Import JS.

(** ** Settings (background.js, lines 6-119) *)

Record Durations : Type := {
  work : Q;
  shortBreak : Q;
  longBreak : Q
}.

Record Notifications : Type := {
  desktop : bool;
  sound : bool;
  soundType : string
}.

Record TickingSound : Type := {
  enabled : bool
}.

Record Settings : Type := {
  durations : Durations;
  longBreakInterval : Z;
  autoStartBreaks : bool;
  autoStartWork : bool;
  notifications : Notifications;
  tickingSound : TickingSound
}.

Definition DEFAULT_SETTINGS : Settings := {|
  durations := {| work := 25 * 60; shortBreak := 5 * 60; longBreak := 15 * 60 |};
  longBreakInterval := 4;
  autoStartBreaks := false;
  autoStartWork := false;
  notifications := {| desktop := true; sound := true; soundType := "beep" |};
  tickingSound := {| enabled := false |}
|}.

(** A settings object as the JavaScript value it is: what is written to
    storage, and what a second sanitization receives. *)
Definition js_of_durations (d : Durations) : jsval :=
  JObj [("work", JNum (Fin (work d)));
        ("shortBreak", JNum (Fin (shortBreak d)));
        ("longBreak", JNum (Fin (longBreak d)))].

Definition js_of_notifications (n : Notifications) : jsval :=
  JObj [("desktop", JBool (desktop n));
        ("sound", JBool (sound n));
        ("soundType", JStr (soundType n))].

Definition js_of_tickingSound (t : TickingSound) : jsval :=
  JObj [("enabled", JBool (enabled t))].

Definition js_of_settings (s : Settings) : jsval :=
  JObj [("durations", js_of_durations (durations s));
        ("longBreakInterval", JNum (Fin (inject_Z (longBreakInterval s))));
        ("autoStartBreaks", JBool (autoStartBreaks s));
        ("autoStartWork", JBool (autoStartWork s));
        ("notifications", js_of_notifications (notifications s));
        ("tickingSound", js_of_tickingSound (tickingSound s))].

(** ** Timer state (background.js, lines 26-47) *)

Inductive SessionType : Type :=
| WORK
| SHORT_BREAK
| LONG_BREAK.

Definition SessionType_eqb (a b : SessionType) : bool :=
  match a, b with
  | WORK, WORK | SHORT_BREAK, SHORT_BREAK | LONG_BREAK, LONG_BREAK => true
  | _, _ => false
  end.

(** [startTime] and [pausedAt] are [null] or a [Date.now()] reading in
    milliseconds; [tickInterval] tells whether the property holds an
    interval handle. *)
Record TimerState : Type := {
  isRunning : bool;
  isPaused : bool;
  currentSession : SessionType;
  timeRemaining : Q;
  cycleCount : Z;
  startTime : option Z;
  pausedAt : option Z;
  totalPausedTime : Z;
  initialDuration : Q;
  tickInterval : bool
}.

Definition initial_timerState : TimerState := {|
  isRunning := false;
  isPaused := false;
  currentSession := WORK;
  timeRemaining := work (durations DEFAULT_SETTINGS);
  cycleCount := 0;
  startTime := None;
  pausedAt := None;
  totalPausedTime := 0;
  initialDuration := work (durations DEFAULT_SETTINGS);
  tickInterval := false
|}.

(** Assignments to the properties of [timerState]. *)
Definition set_isRunning (v : bool) (t : TimerState) : TimerState :=
  {| isRunning := v; isPaused := isPaused t; currentSession := currentSession t;
     timeRemaining := timeRemaining t; cycleCount := cycleCount t;
     startTime := startTime t; pausedAt := pausedAt t;
     totalPausedTime := totalPausedTime t; initialDuration := initialDuration t;
     tickInterval := tickInterval t |}.

Definition set_isPaused (v : bool) (t : TimerState) : TimerState :=
  {| isRunning := isRunning t; isPaused := v; currentSession := currentSession t;
     timeRemaining := timeRemaining t; cycleCount := cycleCount t;
     startTime := startTime t; pausedAt := pausedAt t;
     totalPausedTime := totalPausedTime t; initialDuration := initialDuration t;
     tickInterval := tickInterval t |}.

Definition set_currentSession (v : SessionType) (t : TimerState) : TimerState :=
  {| isRunning := isRunning t; isPaused := isPaused t; currentSession := v;
     timeRemaining := timeRemaining t; cycleCount := cycleCount t;
     startTime := startTime t; pausedAt := pausedAt t;
     totalPausedTime := totalPausedTime t; initialDuration := initialDuration t;
     tickInterval := tickInterval t |}.

Definition set_timeRemaining (v : Q) (t : TimerState) : TimerState :=
  {| isRunning := isRunning t; isPaused := isPaused t;
     currentSession := currentSession t; timeRemaining := v; cycleCount := cycleCount t;
     startTime := startTime t; pausedAt := pausedAt t;
     totalPausedTime := totalPausedTime t; initialDuration := initialDuration t;
     tickInterval := tickInterval t |}.

Definition set_cycleCount (v : Z) (t : TimerState) : TimerState :=
  {| isRunning := isRunning t; isPaused := isPaused t;
     currentSession := currentSession t; timeRemaining := timeRemaining t;
     cycleCount := v; startTime := startTime t; pausedAt := pausedAt t;
     totalPausedTime := totalPausedTime t; initialDuration := initialDuration t;
     tickInterval := tickInterval t |}.

Definition set_startTime (v : option Z) (t : TimerState) : TimerState :=
  {| isRunning := isRunning t; isPaused := isPaused t;
     currentSession := currentSession t; timeRemaining := timeRemaining t;
     cycleCount := cycleCount t; startTime := v; pausedAt := pausedAt t;
     totalPausedTime := totalPausedTime t; initialDuration := initialDuration t;
     tickInterval := tickInterval t |}.

Definition set_pausedAt (v : option Z) (t : TimerState) : TimerState :=
  {| isRunning := isRunning t; isPaused := isPaused t;
     currentSession := currentSession t; timeRemaining := timeRemaining t;
     cycleCount := cycleCount t; startTime := startTime t; pausedAt := v;
     totalPausedTime := totalPausedTime t; initialDuration := initialDuration t;
     tickInterval := tickInterval t |}.

Definition set_totalPausedTime (v : Z) (t : TimerState) : TimerState :=
  {| isRunning := isRunning t; isPaused := isPaused t;
     currentSession := currentSession t; timeRemaining := timeRemaining t;
     cycleCount := cycleCount t; startTime := startTime t; pausedAt := pausedAt t;
     totalPausedTime := v; initialDuration := initialDuration t;
     tickInterval := tickInterval t |}.

Definition set_initialDuration (v : Q) (t : TimerState) : TimerState :=
  {| isRunning := isRunning t; isPaused := isPaused t;
     currentSession := currentSession t; timeRemaining := timeRemaining t;
     cycleCount := cycleCount t; startTime := startTime t; pausedAt := pausedAt t;
     totalPausedTime := totalPausedTime t; initialDuration := v;
     tickInterval := tickInterval t |}.

Definition set_tickInterval (v : bool) (t : TimerState) : TimerState :=
  {| isRunning := isRunning t; isPaused := isPaused t;
     currentSession := currentSession t; timeRemaining := timeRemaining t;
     cycleCount := cycleCount t; startTime := startTime t; pausedAt := pausedAt t;
     totalPausedTime := totalPausedTime t; initialDuration := initialDuration t;
     tickInterval := v |}.

(** [null] in arithmetic is 0; [null] and 0 are falsy. *)
Definition num_of (o : option Z) : Z := default 0 o.

Definition truthy_time (o : option Z) : bool :=
  match o with
  | Some t => negb (t =? 0)
  | None => false
  end.

Definition truthy_num (q : Q) : bool := negb (Qeq_bool q 0).

(** ** The worker's world

    The two module-level variables, the four storage keys the background
    script uses and the [pomodoro-end] alarm ([when], in milliseconds). *)
Record World : Type := {
  settings : Settings;
  timerState : TimerState;
  stored_settings : jsval;
  stored_durations : jsval;
  stored_timerState : option TimerState;
  sessionHistory : gmap string Z;
  alarm : option Q
}.

Definition set_settings (v : Settings) (w : World) : World :=
  {| settings := v; timerState := timerState w; stored_settings := stored_settings w;
     stored_durations := stored_durations w; stored_timerState := stored_timerState w;
     sessionHistory := sessionHistory w; alarm := alarm w |}.

Definition set_timerState (v : TimerState) (w : World) : World :=
  {| settings := settings w; timerState := v; stored_settings := stored_settings w;
     stored_durations := stored_durations w; stored_timerState := stored_timerState w;
     sessionHistory := sessionHistory w; alarm := alarm w |}.

Definition set_stored_settings (v : jsval) (w : World) : World :=
  {| settings := settings w; timerState := timerState w; stored_settings := v;
     stored_durations := stored_durations w; stored_timerState := stored_timerState w;
     sessionHistory := sessionHistory w; alarm := alarm w |}.

Definition set_stored_durations (v : jsval) (w : World) : World :=
  {| settings := settings w; timerState := timerState w;
     stored_settings := stored_settings w; stored_durations := v;
     stored_timerState := stored_timerState w; sessionHistory := sessionHistory w;
     alarm := alarm w |}.

Definition set_stored_timerState (v : option TimerState) (w : World) : World :=
  {| settings := settings w; timerState := timerState w;
     stored_settings := stored_settings w; stored_durations := stored_durations w;
     stored_timerState := v; sessionHistory := sessionHistory w; alarm := alarm w |}.

Definition set_sessionHistory (v : gmap string Z) (w : World) : World :=
  {| settings := settings w; timerState := timerState w;
     stored_settings := stored_settings w; stored_durations := stored_durations w;
     stored_timerState := stored_timerState w; sessionHistory := v; alarm := alarm w |}.

Definition set_alarm (v : option Q) (w : World) : World :=
  {| settings := settings w; timerState := timerState w;
     stored_settings := stored_settings w; stored_durations := stored_durations w;
     stored_timerState := stored_timerState w; sessionHistory := sessionHistory w;
     alarm := v |}.

(** [timerState.x = ...] on the module-level variable. *)
Definition upd (f : TimerState -> TimerState) (w : World) : World :=
  set_timerState (f (timerState w)) w.


(** An engine for the examples.  No example below passes a string, an
    array or an object to [Number], so none consults it. *)
Definition example_engine : Engine := {|
  StringToNumber := fun _ => NaN;
  NumberToString := fun _ => ""
|}.

(** * The program, for an engine *)

Section Program.

Variable engine : Engine.

(** ** Sanitization of settings (background.js, lines 52-119) *)

(** [sanitizeNumber(value, fallback, min, max)].  Every caller passes a
    finite literal as [fallback], so the result, [fallback] or the finite
    [number], is a rational; [None] is the TypeError of [Number(value)]. *)
Definition sanitizeNumber (value : jsval) (fallback : Q) (min max : number)
  : option Q :=
  number ← ToNumber engine value;
  Some match number with
       | Fin q =>
           if isFinite min && lt number min then fallback
           else if isFinite max && gt number max then fallback
           else q
       | _ => fallback
       end.

Definition SOUND_TYPES : list string := ["beep"; "chime"; "bell"].

(** [sanitizeSettings(rawSettings)].  Each [rawSettings.x] is a TypeError
    when [rawSettings] is [undefined] or [null], and each [Number(value)]
    may throw one: the result is then [None]. *)
Definition sanitizeSettings (rawSettings : jsval) : option Settings :=
  rawDurations ← member rawSettings "durations";
  safeWork ← sanitizeNumber (opt_member rawDurations "work")
                (work (durations DEFAULT_SETTINGS)) (Fin 60) (Fin (60 * 60));
  safeShortBreak ← sanitizeNumber (opt_member rawDurations "shortBreak")
                (shortBreak (durations DEFAULT_SETTINGS)) (Fin 60) (Fin (30 * 60));
  safeLongBreak ← sanitizeNumber (opt_member rawDurations "longBreak")
                (longBreak (durations DEFAULT_SETTINGS)) (Fin 60) (Fin (60 * 60));
  rawInterval ← member rawSettings "longBreakInterval";
  safeInterval ← sanitizeNumber rawInterval
                (inject_Z (longBreakInterval DEFAULT_SETTINGS)) (Fin 0) (Fin 12);
  rawAutoStartBreaks ← member rawSettings "autoStartBreaks";
  rawAutoStartWork ← member rawSettings "autoStartWork";
  rawNotifications ← member rawSettings "notifications";
  rawTickingSound ← member rawSettings "tickingSound";
  Some {|
    durations := {|
      work := safeWork;
      shortBreak := safeShortBreak;
      longBreak := safeLongBreak
    |};
    longBreakInterval := Math_floor safeInterval;
    autoStartBreaks := ToBoolean rawAutoStartBreaks;
    autoStartWork := ToBoolean rawAutoStartWork;
    notifications := {|
      desktop := strict_ne_false (opt_member rawNotifications "desktop");
      sound := strict_ne_false (opt_member rawNotifications "sound");
      soundType :=
        match opt_member rawNotifications "soundType" with
        | JStr s =>
            if existsb (String.eqb s) SOUND_TYPES then s
            else soundType (notifications DEFAULT_SETTINGS)
        | _ => soundType (notifications DEFAULT_SETTINGS)
        end
    |};
    tickingSound := {| enabled := ToBoolean (opt_member rawTickingSound "enabled") |}
  |}.

(** [{...DEFAULT_SETTINGS.k, ...(savedSettings && savedSettings.k ? savedSettings.k : {})}] *)
Definition merge_nested (k : string) (savedSettings : jsval) : jsval :=
  JObj (spread (spread [] (prop (js_of_settings DEFAULT_SETTINGS) k))
          (if ToBoolean savedSettings && ToBoolean (prop savedSettings k)
           then prop savedSettings k
           else JObj [])).

(** [mergeSettings(savedSettings, legacyDurations)] *)
Definition mergeSettings (savedSettings legacyDurations : jsval) : option Settings :=
  let merged := spread (spread [] (js_of_settings DEFAULT_SETTINGS)) savedSettings in
  let merged := set_field "durations" (merge_nested "durations" savedSettings) merged in
  let merged := set_field "notifications" (merge_nested "notifications" savedSettings) merged in
  let merged := set_field "tickingSound" (merge_nested "tickingSound" savedSettings) merged in
  let merged :=
    if ToBoolean legacyDurations
    then set_field "durations"
           (JObj (spread (spread [] (lookup_field "durations" merged)) legacyDurations))
           merged
    else merged in
  sanitizeSettings (JObj merged).


(** ** The functions of the background script

    Storage reads and writes succeed; the notification, sound and badge
    calls have no effect on the world and are left out. *)

(** [loadSettings()]; the [catch] branch resets [settings] to a copy of
    the defaults. *)
Definition loadSettings (w : World) : World :=
  match mergeSettings (stored_settings w) (stored_durations w) with
  | Some s =>
      set_stored_durations (js_of_durations (durations s))
        (set_stored_settings (js_of_settings s) (set_settings s w))
  | None => set_settings DEFAULT_SETTINGS w
  end.

(** [getSessionDuration(sessionType)], reading the variable [settings]. *)
Definition getSessionDuration (w : World) (sessionType : SessionType) : Q :=
  let durations := durations (settings w) in
  match sessionType with
  | WORK => work durations
  | SHORT_BREAK => shortBreak durations
  | LONG_BREAK => longBreak durations
  end.

(** [saveState()] *)
Definition saveState (w : World) : World :=
  set_stored_timerState (Some (timerState w)) w.

(** [scheduleEndAlarm()]; creating an alarm under an existing name
    replaces it. *)
Definition scheduleEndAlarm (now : Z) (w : World) : World :=
  let t := timerState w in
  if negb (isRunning t) || isPaused t || negb (truthy_time (startTime t)) then w
  else
    let remainingMs := (Math_max (timeRemaining t) 1 * 1000)%Q in
    set_alarm (Some (inject_Z now + remainingMs)%Q) w.

(** [clearEndAlarm()] *)
Definition clearEndAlarm (w : World) : World := set_alarm None w.

(** [startTick()]: the interval is (re)armed and its handle recorded. *)
Definition startTick (w : World) : World := upd (set_tickInterval true) w.

(** The body of [updateSessionHistory()] between its two storage calls:
    [if (!history[today]) history[today] = 0; history[today]++]. *)
Definition count_session (today : string) (history : gmap string Z) : gmap string Z :=
  let history :=
    match history !! today with
    | Some c => if c =? 0 then <[today := 0]> history else history
    | None => <[today := 0]> history
    end in
  <[today := default 0 (history !! today) + 1]> history.

(** [updateSessionHistory()], with [today] the [toDateString()] of the
    current date. *)
Definition updateSessionHistory (today : string) (w : World) : World :=
  let history := sessionHistory w in
  let history := count_session today history in
  set_sessionHistory history w.

(** What one run of the completion handler reads from its environment:
    the date string, and the two readings of [Date.now()] (for
    [startTime] and inside [scheduleEndAlarm]). *)
Record Readings : Type := {
  today : string;
  startNow : Z;
  alarmNow : Z
}.

(** [handleTimerComplete()] *)
Definition handleTimerComplete (r : Readings) (w : World) : World :=
  (* Update session history if work session completed *)
  let w :=
    match currentSession (timerState w) with
    | WORK =>
        let w := updateSessionHistory (today r) w in
        upd (fun t => set_cycleCount (cycleCount t + 1) t) w
    | _ => w
    end in
  (* Move to next session *)
  let w :=
    match currentSession (timerState w) with
    | WORK =>
        if (0 <? longBreakInterval (settings w))
           && (Z.rem (cycleCount (timerState w)) (longBreakInterval (settings w)) =? 0)
        then
          let w := upd (set_currentSession LONG_BREAK) w in
          upd (set_timeRemaining (getSessionDuration w LONG_BREAK)) w
        else
          let w := upd (set_currentSession SHORT_BREAK) w in
          upd (set_timeRemaining (getSessionDuration w SHORT_BREAK)) w
    | _ =>
        let w := upd (set_currentSession WORK) w in
        upd (set_timeRemaining (getSessionDuration w WORK)) w
    end in
  (* Reset timer state (autostart if enabled) *)
  let w := upd (set_isPaused false) w in
  let w := upd (set_totalPausedTime 0) w in
  let w := upd (set_pausedAt None) w in
  let w := upd (fun t => set_initialDuration (timeRemaining t) t) w in
  let w := upd (set_startTime None) w in
  let shouldAutostart :=
    match currentSession (timerState w) with
    | WORK => autoStartWork (settings w)
    | _ => autoStartBreaks (settings w)
    end in
  let w := upd (set_isRunning shouldAutostart) w in
  let w :=
    if shouldAutostart then
      let w := upd (set_startTime (Some (startNow r))) w in
      let w := scheduleEndAlarm (alarmNow r) w in
      startTick w
    else clearEndAlarm w in
  saveState w.

(** [skipSession()] *)
Definition skipSession (r : Readings) (w : World) : World :=
  handleTimerComplete r w.

(** *** [handleTimerComplete()] as an async function

    A call runs to the first [await] it reaches; each later part runs
    once the awaited promise has settled, and other listeners may run in
    between.  [Suspended] names the [await] a run is stopped at, with
    the local values the rest of the run uses: the date string and the
    history read inside [updateSessionHistory()], the duration returned
    by [getSessionDuration()], and [shouldAutostart].  A storage or alarm
    call takes effect when it is issued. *)
Inductive Suspended : Type :=
| Called
| AtShowNotification
| AtHistoryGet (today : string) (result : gmap string Z)
| AtHistorySet
| AtGetSessionDuration (duration : Q)
| AtEndAlarm (shouldAutostart : bool)
| AtSaveState
| Returned.

(** From [// Move to next session] to the [await getSessionDuration(..)]
    of the branch taken. *)
Definition move_to_next_session (w : World) : Suspended * World :=
  match currentSession (timerState w) with
  | WORK =>
      if (0 <? longBreakInterval (settings w))
         && (Z.rem (cycleCount (timerState w)) (longBreakInterval (settings w)) =? 0)
      then
        let w := upd (set_currentSession LONG_BREAK) w in
        (AtGetSessionDuration (getSessionDuration w LONG_BREAK), w)
      else
        let w := upd (set_currentSession SHORT_BREAK) w in
        (AtGetSessionDuration (getSessionDuration w SHORT_BREAK), w)
  | _ =>
      let w := upd (set_currentSession WORK) w in
      (AtGetSessionDuration (getSessionDuration w WORK), w)
  end.

(** From [// Update session history if work session completed] to the
    next [await]: the one on the storage read of
    [updateSessionHistory()], or the one of the next session. *)
Definition update_history_or_move (r : Readings) (w : World) : Suspended * World :=
  match currentSession (timerState w) with
  | WORK => (AtHistoryGet (today r) (sessionHistory w), w)
  | _ => move_to_next_session w
  end.

(** One uninterrupted part of a run: from the point [k] to the next
    [await], or to the end. *)
Definition resume (r : Readings) (k : Suspended) (w : World) : Suspended * World :=
  match k with
  | Called =>
      if desktop (notifications (settings w)) then (AtShowNotification, w)
      else update_history_or_move r w
  | AtShowNotification => update_history_or_move r w
  | AtHistoryGet today result =>
      let history := result in
      let history := count_session today history in
      (AtHistorySet, set_sessionHistory history w)
  | AtHistorySet =>
      let w := upd (fun t => set_cycleCount (cycleCount t + 1) t) w in
      move_to_next_session w
  | AtGetSessionDuration duration =>
      let w := upd (set_timeRemaining duration) w in
      (* Reset timer state (autostart if enabled) *)
      let w := upd (set_isPaused false) w in
      let w := upd (set_totalPausedTime 0) w in
      let w := upd (set_pausedAt None) w in
      let w := upd (fun t => set_initialDuration (timeRemaining t) t) w in
      let w := upd (set_startTime None) w in
      let shouldAutostart :=
        match currentSession (timerState w) with
        | WORK => autoStartWork (settings w)
        | _ => autoStartBreaks (settings w)
        end in
      let w := upd (set_isRunning shouldAutostart) w in
      if shouldAutostart then
        let w := upd (set_startTime (Some (startNow r))) w in
        (AtEndAlarm shouldAutostart, scheduleEndAlarm (alarmNow r) w)
      else (AtEndAlarm shouldAutostart, clearEndAlarm w)
  | AtEndAlarm shouldAutostart =>
      let w := if shouldAutostart then startTick w else w in
      (AtSaveState, saveState w)
  | AtSaveState => (Returned, w)
  | Returned => (Returned, w)
  end.

(** A run resumed [n] times in a row. *)
Fixpoint resume_n (n : nat) (r : Readings) (k : Suspended) (w : World)
  : Suspended * World :=
  match n with
  | O => (k, w)
  | S n' => let (k', w') := resume r k w in resume_n n' r k' w'
  end.

(** Two runs, the first with readings [r1] and the second with [r2],
    resumed in the order of [schedule] ([true] for the first run). *)
Fixpoint interleave (schedule : list bool) (r1 r2 : Readings)
    (k1 k2 : Suspended) (w : World) : Suspended * Suspended * World :=
  match schedule with
  | [] => (k1, k2, w)
  | true :: schedule' =>
      let (k1', w') := resume r1 k1 w in interleave schedule' r1 r2 k1' k2 w'
  | false :: schedule' =>
      let (k2', w') := resume r2 k2 w in interleave schedule' r1 r2 k1 k2' w'
  end.

(** The remaining time the tick callback computes: [calculatedRemaining]
    at the reading [now]. *)
Definition calculatedRemaining (t : TimerState) (now : Z) : Q :=
  let elapsedMs := now - num_of (startTime t) - totalPausedTime t in
  let elapsedSeconds := Math_floor (inject_Z elapsedMs / 1000) in
  Math_max 0 (initialDuration t - inject_Z elapsedSeconds).

(** One run of the interval callback of [startTick()]. *)
Definition tick (now : Z) (r : Readings) (w : World) : World :=
  if negb (isRunning (timerState w)) || isPaused (timerState w) then
    upd (set_tickInterval false) w
  else
    let calculatedRemaining := calculatedRemaining (timerState w) now in
    if negb (Qeq_bool (timeRemaining (timerState w)) calculatedRemaining) then
      let w := upd (set_timeRemaining calculatedRemaining) w in
      if Qle_bool (timeRemaining (timerState w)) 0 then
        let w := upd (set_tickInterval false) w in
        handleTimerComplete r w
      else saveState w
    else w.

(** [startTimer()]: [now] is the reading taken for the resume or for
    [startTime], [now'] the one inside [scheduleEndAlarm]. *)
Definition startTimer (now now' : Z) (w : World) : World :=
  if isRunning (timerState w) && negb (isPaused (timerState w)) then w
  else
    let w :=
      if isPaused (timerState w) then
        (* Resume from pause *)
        let w := upd (fun t =>
                   set_totalPausedTime (totalPausedTime t + (now - num_of (pausedAt t))) t) w in
        let w := upd (set_isPaused false) w in
        upd (set_pausedAt None) w
      else
        (* Start fresh *)
        let w := loadSettings w in
        let sessionDuration := getSessionDuration w (currentSession (timerState w)) in
        let w := upd (set_isRunning true) w in
        let w := upd (set_startTime (Some now)) w in
        let w := upd (set_totalPausedTime 0) w in
        let w := upd (set_timeRemaining sessionDuration) w in
        upd (set_initialDuration sessionDuration) w in
    let w := saveState w in
    let w := scheduleEndAlarm now' w in
    startTick w.

(** [pauseTimer()]: [now] is the reading used for the remaining time,
    [now'] the one stored in [pausedAt]. *)
Definition pauseTimer (now now' : Z) (w : World) : World :=
  if negb (isRunning (timerState w)) || isPaused (timerState w) then w
  else
    let w :=
      if truthy_time (startTime (timerState w))
         && truthy_num (initialDuration (timerState w))
      then
        let t := timerState w in
        let elapsedMs := now - num_of (startTime t) - totalPausedTime t in
        let elapsedSeconds := Math_floor (inject_Z elapsedMs / 1000) in
        upd (set_timeRemaining (Math_max 0 (initialDuration t - inject_Z elapsedSeconds))) w
      else w in
    let w := upd (set_isPaused true) w in
    let w := upd (set_pausedAt (Some now')) w in
    let w := upd (set_tickInterval false) w in
    let w := clearEndAlarm w in
    saveState w.

(** [resetTimer()] *)
Definition resetTimer (w : World) : World :=
  let w := loadSettings w in
  let w := upd (set_isRunning false) w in
  let w := upd (set_isPaused false) w in
  let w := upd (set_startTime None) w in
  let w := upd (set_pausedAt None) w in
  let w := upd (set_totalPausedTime 0) w in
  let w := upd (set_cycleCount 0) w in
  let w := upd (set_currentSession WORK) w in
  let w := upd (set_timeRemaining (getSessionDuration w WORK)) w in
  let w := upd (fun t => set_initialDuration (timeRemaining t) t) w in
  let w := saveState w in
  clearEndAlarm w.

(** [loadState()].  The stored state is one [saveState()] wrote, so its
    [initialDuration] is a finite number and its [totalPausedTime] a
    number: [Number.isFinite(timerState.initialDuration)] holds and
    [timerState.totalPausedTime || 0] is [totalPausedTime]. *)
Definition loadState (now : Z) (r : Readings) (w : World) : World :=
  let w := loadSettings w in
  match stored_timerState w with
  | Some stored =>
      let w := set_timerState stored w in
      let t := timerState w in
      if isRunning t && negb (isPaused t) && truthy_time (startTime t) then
        (* Recalculate time remaining if timer was running *)
        let initialDuration := initialDuration t in
        let w := upd (set_initialDuration initialDuration) w in
        let elapsedMs := now - num_of (startTime t) - totalPausedTime t in
        let elapsedSeconds := Math_floor (inject_Z elapsedMs / 1000) in
        let w := upd (set_timeRemaining
                        (Math_max 0 (initialDuration - inject_Z elapsedSeconds))) w in
        if Qle_bool (timeRemaining (timerState w)) 0
        then handleTimerComplete r w
        else w
      else if negb (isRunning t) && negb (isPaused t) then
        let expectedDuration := getSessionDuration w (currentSession t) in
        if negb (Qeq_bool (timeRemaining t) expectedDuration) then
          let w := upd (set_timeRemaining expectedDuration) w in
          let w := upd (set_initialDuration expectedDuration) w in
          saveState w
        else w
      else w
  | None =>
      (* Initialize with default work duration *)
      let w := upd (set_currentSession WORK) w in
      let w := upd (set_timeRemaining (getSessionDuration w WORK)) w in
      let w := upd (fun t => set_initialDuration (timeRemaining t) t) w in
      saveState w
  end.

(** The [getState] case of the message listener, up to the reply. *)
Definition getState (now : Z) (r : Readings) (now' : Z) (r' : Readings) (w : World)
  : World :=
  let w := loadState now r w in
  let t := timerState w in
  if isRunning t && negb (isPaused t) && truthy_time (startTime t)
     && truthy_num (initialDuration t)
  then
    if negb (tickInterval t) then
      let elapsedMs := now' - num_of (startTime t) - totalPausedTime t in
      let elapsedSeconds := Math_floor (inject_Z elapsedMs / 1000) in
      let w := upd (set_timeRemaining
                      (Math_max 0 (initialDuration t - inject_Z elapsedSeconds))) w in
      if Qle_bool (timeRemaining (timerState w)) 0
      then handleTimerComplete r' w
      else w
    else w
  else if negb (isRunning t) && negb (isPaused t) then
    let expectedDuration := getSessionDuration w (currentSession t) in
    if negb (Qeq_bool (timeRemaining t) expectedDuration) then
      let w := upd (set_timeRemaining expectedDuration) w in
      let w := upd (set_initialDuration expectedDuration) w in
      saveState w
    else w
  else w.

(** What the [updateSettings] and [updateDurations] cases do once the new
    settings are computed. *)
Definition install_settings (s : Settings) (w : World) : World :=
  let w := set_settings s w in
  let w := set_stored_settings (js_of_settings s) w in
  let w := set_stored_durations (js_of_durations (durations s)) w in
  (* Always update current session duration if timer is not running *)
  if negb (isRunning (timerState w)) && negb (isPaused (timerState w)) then
    let w := upd (set_timeRemaining
                    (getSessionDuration w (currentSession (timerState w)))) w in
    let w := upd (fun t => set_initialDuration (timeRemaining t) t) w in
    saveState w
  else w.

(** The [updateSettings] case; [request_settings] is [request.settings].
    An exception leaves the world as it is (the reply reports it). *)
Definition updateSettings (request_settings : jsval) (w : World) : World :=
  match mergeSettings request_settings (opt_member request_settings "durations") with
  | Some s => install_settings s w
  | None => w
  end.

(** The [updateDurations] case; [request_durations] is
    [request.durations]. *)
Definition updateDurations (request_durations : jsval) (w : World) : World :=
  let saved :=
    JObj (set_field "durations" request_durations
            (spread [] (js_of_settings (settings w)))) in
  match mergeSettings saved request_durations with
  | Some s => install_settings s w
  | None => w
  end.

(** The alarm listener, its call of [handleTimerComplete()] run to the
    end. *)
Definition onAlarm (name : string) (r : Readings) (w : World) : World :=
  if String.eqb name "pomodoro-end" then handleTimerComplete r w else w.

(** A (re)started worker evaluates the script: the module-level variables
    hold their initial values, storage and the alarm persist. *)
Definition worker_start (w : World) : World :=
  set_timerState initial_timerState (set_settings DEFAULT_SETTINGS w).

(** The world at installation: nothing stored, no alarm. *)
Definition initial_world : World := {|
  settings := DEFAULT_SETTINGS;
  timerState := initial_timerState;
  stored_settings := JUndefined;
  stored_durations := JUndefined;
  stored_timerState := None;
  sessionHistory := ∅;
  alarm := None
|}.

(** The events the worker reacts to. *)
Inductive Event : Type :=
| EStart (now now' : Z)
| EPause (now now' : Z)
| EReset
| ESkip (r : Readings)
| ETick (now : Z) (r : Readings)
| EAlarm (name : string) (r : Readings)
| ELoadState (now : Z) (r : Readings)
| EGetState (now : Z) (r : Readings) (now' : Z) (r' : Readings)
| EUpdateSettings (request_settings : jsval)
| EUpdateDurations (request_durations : jsval)
| ERestart.

Definition react (e : Event) (w : World) : World :=
  match e with
  | EStart now now' => startTimer now now' w
  | EPause now now' => pauseTimer now now' w
  | EReset => resetTimer w
  | ESkip r => skipSession r w
  | ETick now r => tick now r w
  | EAlarm name r => onAlarm name r w
  | ELoadState now r => loadState now r w
  | EGetState now r now' r' => getState now r now' r' w
  | EUpdateSettings s => updateSettings s w
  | EUpdateDurations d => updateDurations d w
  | ERestart => worker_start w
  end.

(** Events handled in order, oldest first. *)
Definition run (es : list Event) (w : World) : World :=
  fold_left (fun w e => react e w) es w.


(** * The vocabulary of the specification *)

(** A finite number inside the closed interval. *)
Definition in_bounds (lo hi : Q) (n : number) : bool :=
  match n with
  | Fin q => Qle_bool lo q && Qle_bool q hi
  | _ => false
  end.

Definition finite_value (n : number) : Q :=
  match n with
  | Fin q => q
  | _ => 0
  end.

(** The number is a whole number. *)
Definition is_integer (q : Q) : bool := Qeq_bool q (inject_Z (Qfloor q)).

(** Settings as section 3 of the specification bounds them, without the
    requirement that durations be whole numbers. *)
Definition sane (s : Settings) : Prop :=
  (60 <= work (durations s) <= 3600)%Q /\
  (60 <= shortBreak (durations s) <= 1800)%Q /\
  (60 <= longBreak (durations s) <= 3600)%Q /\
  0 <= longBreakInterval s <= 12 /\
  In (soundType (notifications s)) SOUND_TYPES.

(** A raw input whose work duration is ninety and a half seconds. *)
Definition fractional_raw : jsval :=
  JObj [("durations", JObj [("work", JNum (Fin (181 # 2)))])].

(** The falsy values of the language: [undefined], [null], [false], the
    number 0, NaN and the empty string.  Every other value is truthy. *)
Definition falsy (v : jsval) : Prop :=
  v = JUndefined \/ v = JNull \/ v = JBool false \/ v = JNum NaN \/
  (exists q : Q, v = JNum (Fin q) /\ (q == 0)%Q) \/ v = JStr "".

(** The falsy values other than [false] itself. *)
Definition falsy_not_false : list jsval :=
  [JNum (Fin 0); JNull; JUndefined; JStr ""].

(** Some truthy values: [true], non-zero numbers, non-empty strings
    (also the words for false and zero), arrays and objects (also empty
    ones). *)
Definition truthy_examples : list jsval :=
  [JBool true; JNum (Fin 1); JNum (Fin (-1 # 2)); JNum PosInf;
   JStr "yes"; JStr "false"; JStr "0"; JArr []; JObj []].

(** A raw input that carries [v] in each of the five boolean fields. *)
Definition flags_raw (v : jsval) : jsval :=
  JObj [("autoStartBreaks", v);
        ("autoStartWork", v);
        ("notifications", JObj [("desktop", v); ("sound", v)]);
        ("tickingSound", JObj [("enabled", v)])].

(** The five boolean fields: desktop, sound, autoStartBreaks,
    autoStartWork, tickingSound.enabled. *)
Definition flags (s : Settings) : bool * bool * bool * bool * bool :=
  (desktop (notifications s), sound (notifications s),
   autoStartBreaks s, autoStartWork s, enabled (tickingSound s)).

(** Section 4.2, step 3: the session that follows the one that ends,
    [cycleCount] being the count before the increment of step 2. *)
Definition next_session (s : Settings) (t : TimerState) : SessionType :=
  match currentSession t with
  | WORK =>
      if (0 <? longBreakInterval s)
         && (Z.rem (cycleCount t + 1) (longBreakInterval s) =? 0)
      then LONG_BREAK else SHORT_BREAK
  | _ => WORK
  end.

(** Section 4.2, step 5: the auto-start policy for the next session. *)
Definition should_autostart (s : Settings) (next : SessionType) : bool :=
  match next with
  | WORK => autoStartWork s
  | _ => autoStartBreaks s
  end.

Definition duration_of (s : Settings) (session : SessionType) : Q :=
  match session with
  | WORK => work (durations s)
  | SHORT_BREAK => shortBreak (durations s)
  | LONG_BREAK => longBreak (durations s)
  end.

(** The sessions entered by successive runs of the completion handler. *)
Fixpoint sessions_after (rs : list Readings) (w : World) : list SessionType :=
  match rs with
  | [] => []
  | r :: rs' =>
      let w' := handleTimerComplete r w in
      currentSession (timerState w') :: sessions_after rs' w'
  end.

(** Two overlapping runs of the completion handler: the second starts
    while the first waits for its notification; each is resumed when
    the browser call it waits for has answered, the answers to the first
    run arriving first; a run that awaits [getSessionDuration()], which
    waits for no browser call, goes on before the other is resumed. *)
Definition overlapping_schedule : list bool :=
  [true; false;          (* both called: await showNotification() *)
   true; false;          (* both at the storage read of the history *)
   true; false;          (* both at the storage write of the history *)
   true; true;           (* the first: cycleCount++, next session, alarm *)
   false; false;         (* the second: the same *)
   true; false;          (* both at saveState() *)
   true; false].         (* both return *)

(** The pairs of [isRunning] and [isPaused] the data model allows: all
    but stopped-and-paused. *)
Definition valid_pair (t : TimerState) : Prop :=
  ~ (isRunning t = false /\ isPaused t = true).

(** The elapsed-time law in the words of the specification. *)
Definition elapsed_time_law (startTime totalPausedTime : Z) (initialDuration : Q) (now : Z)
  : Q :=
  Qmax 0 (initialDuration
          - inject_Z (Qfloor (inject_Z (now - startTime - totalPausedTime) / 1000))).

(** Ticks at the given readings, oldest first. *)
Definition ticks (times : list Z) (r : Readings) (w : World) : World :=
  fold_left (fun w now => tick now r w) times w.

(** Readings for the examples: the clock of 1 January 2026, 09:00 UTC. *)
Definition morning : Readings :=
  {| today := "Thu Jan 01 2026"; startNow := 1767258000000; alarmNow := 1767258000000 |}.

(** The sessions of [n] successive completions, by the rule of section
    4.2 alone, from a session and a cycle count. *)
Fixpoint cycle_trace (interval : Z) (n : nat) (session : SessionType) (count : Z)
  : list SessionType :=
  match n with
  | O => []
  | S n' =>
      let count' := match session with WORK => count + 1 | _ => count end in
      let next :=
        match session with
        | WORK =>
            if (0 <? interval) && (Z.rem count' interval =? 0)
            then LONG_BREAK else SHORT_BREAK
        | _ => WORK
        end in
      next :: cycle_trace interval n' next count'
  end.

(** The state in memory and the state in storage both have a valid pair
    of flags. *)
Definition pair_invariant (w : World) : Prop :=
  valid_pair (timerState w) /\
  forall t : TimerState, stored_timerState w = Some t -> valid_pair t.

(** The initial world after a start at nine o'clock. *)
Definition running_world : World :=
  startTimer 1767258000000 1767258000000 initial_world.

(** The running world after a tick a minute and 200 ms after the start:
    1440 seconds remain. *)
Definition ticked_world : World :=
  tick 1767258060200 morning running_world.

(** The running world after a restart of the worker and a state query
    ten seconds after the start: the session is running in memory with
    1490 seconds remaining, and no tick is armed. *)
Definition reloaded_world : World :=
  run [ERestart; EGetState 1767258010000 morning 1767258010000 morning]
    running_world.

(** A session started at nine o'clock and paused five minutes later,
    after which the worker is restarted: the session is in storage, the
    timer state in memory is the initial one. *)
Definition interrupted_world : World :=
  run [EStart 1767258000000 1767258000000;
       EPause 1767258300000 1767258300000;
       ERestart]
    initial_world.

(** A settings update that shortens work sessions to ten minutes. *)
Definition ten_minute_request : jsval :=
  JObj [("durations", JObj [("work", JNum (Fin 600))])].

(** The message the popup sends when the settings are saved with a work
    duration of ten minutes and all else at its default. *)
Definition popup_save_request : jsval :=
  js_of_settings {|
    durations := {| work := 600; shortBreak := 300; longBreak := 900 |};
    longBreakInterval := 4;
    autoStartBreaks := false;
    autoStartWork := false;
    notifications := {| desktop := true; sound := true; soundType := "beep" |};
    tickingSound := {| enabled := false |}
  |}.

(** The outcome of a recomputation of the remaining time to [value]: the
    value is what the resulting state holds, unless it is 0 and the
    completion handler has been run on the state that held it. *)
Definition recomputed (r : Readings) (result : World) (value : Q) : Prop :=
  ((0 < value)%Q -> (timeRemaining (timerState result) == value)%Q) /\
  ((value == 0)%Q ->
   (timeRemaining (timerState result) == value)%Q \/
   exists w0 : World,
     (timeRemaining (timerState w0) == value)%Q /\
     result = handleTimerComplete r w0).



(** * The rest of the background script *)

(** [Math.ceil] on a finite number. *)
Definition Math_ceil (q : Q) : Z := Qceiling q.

(** What [updateBadge()] sets: the text ([Some m] for [m.toString()],
    [None] for the empty string) and the background colour. *)
Record Badge : Type := {
  badge_text : option Z;
  badge_color : string
}.

Definition updateBadge (w : World) : Badge :=
  let minutes := Math_ceil (timeRemaining (timerState w) / 60) in
  let displayText := if 0 <? minutes then Some minutes else None in
  {| badge_text := displayText;
     badge_color := match currentSession (timerState w) with
                    | WORK => "#d32f2f"
                    | _ => "#388e3c"
                    end |}.

(** [getTodaySessionCount()]: [history[today] || 0]. *)
Definition getTodaySessionCount (today : string) (w : World) : Z :=
  let history := sessionHistory w in
  match history !! today with
  | Some c => if c =? 0 then 0 else c
  | None => 0
  end.

(** The result of [getSessionStats()]. *)
Record Stats : Type := {
  stats_today : Z;
  stats_week : Z;
  stats_month : Z;
  stats_total : Z
}.

(** [getSessionStats()].  The calendar is the browser's: [parse_date] is
    [new Date(key).getTime()] with [None] for an invalid date, and
    [today], [weekStart] and [monthStart] are the three dates the
    function derives from the current one (local midnight, the Sunday
    on or before it, the first of the month), as timestamps.  The
    entries are summed in whatever order [Object.entries] lists them. *)
Definition getSessionStats (parse_date : string -> option Z)
    (today weekStart monthStart : Z) (w : World) : Stats :=
  map_fold
    (fun (key : string) (count : Z) (acc : Stats) =>
       match parse_date key with
       | None => acc
       | Some date =>
           {| stats_total := stats_total acc + count;
              stats_today := if today <=? date then stats_today acc + count
                             else stats_today acc;
              stats_week := if weekStart <=? date then stats_week acc + count
                            else stats_week acc;
              stats_month := if monthStart <=? date then stats_month acc + count
                             else stats_month acc |}
       end)
    {| stats_today := 0; stats_week := 0; stats_month := 0; stats_total := 0 |}
    (sessionHistory w).

(** ** Invariants of the reachable worlds *)

(** An idle timer shows the full duration of its session. *)
Definition shows_full_duration (s : Settings) (t : TimerState) : Prop :=
  isRunning t = false ->
  (timeRemaining t == duration_of s (currentSession t))%Q /\
  (initialDuration t == timeRemaining t)%Q.

Definition idle_invariant (w : World) : Prop :=
  shows_full_duration (settings w) (timerState w) /\
  forall st : TimerState,
    stored_timerState w = Some st ->
    isRunning st = false -> (initialDuration st == timeRemaining st)%Q.

(** The numbers of a timer state are those of a session. *)
Definition bounded_state (t : TimerState) : Prop :=
  (0 <= timeRemaining t)%Q /\
  (60 <= initialDuration t <= 3600)%Q /\
  0 <= cycleCount t.

Definition bounded_invariant (w : World) : Prop :=
  sane (settings w) /\
  bounded_state (timerState w) /\
  forall st : TimerState, stored_timerState w = Some st -> bounded_state st.

(** No alarm is pending while the timer is idle or paused, and the saved
    flags are those in memory. *)
Definition alarm_invariant (w : World) : Prop :=
  (isRunning (timerState w) = false \/ isPaused (timerState w) = true ->
   alarm w = None) /\
  forall st : TimerState,
    stored_timerState w = Some st ->
    isRunning st = isRunning (timerState w) /\
    isPaused st = isPaused (timerState w).

Definition is_restart (e : Event) : bool :=
  match e with
  | ERestart => true
  | _ => false
  end.

(** Reduces the projections of a world built by the setters. *)
Ltac world_simpl :=
  cbn [timerState settings stored_timerState stored_settings stored_durations
       sessionHistory alarm
       upd set_timerState set_settings set_stored_timerState set_stored_settings
       set_stored_durations set_alarm set_sessionHistory
       saveState clearEndAlarm startTick
       isRunning isPaused currentSession timeRemaining cycleCount startTime
       pausedAt totalPausedTime initialDuration tickInterval
       set_isRunning set_isPaused set_currentSession set_timeRemaining
       set_cycleCount set_startTime set_pausedAt set_totalPausedTime
       set_initialDuration set_tickInterval] in *.


(** * Properties *)

(** ** Settings sanitization *)

Section Sanitize.

Local Open Scope Q_scope.

Lemma sanitizeNumber_cases (value : jsval) (fallback lo hi : Q) :
  sanitizeNumber value fallback (Fin lo) (Fin hi) =
  n ← ToNumber engine value;
  Some (if in_bounds lo hi n then finite_value n else fallback).
Proof.
  unfold sanitizeNumber, in_bounds, finite_value, gt, lt, JS.Qlt_bool.
  destruct (ToNumber engine value) as [[ | | | q] | ]; simpl; try reflexivity.
  destruct (Qle_bool lo q); simpl; [ | reflexivity].
  destruct (Qle_bool q hi); reflexivity.
Qed.

Lemma sanitizeNumber_bounds (value : jsval) (fallback lo hi q : Q) :
  lo <= fallback <= hi ->
  sanitizeNumber value fallback (Fin lo) (Fin hi) = Some q ->
  lo <= q <= hi.
Proof.
  intros Hfb. rewrite sanitizeNumber_cases. unfold in_bounds, finite_value.
  destruct (ToNumber engine value) as [[ | | | x] | ]; simpl; intros H;
    try discriminate H; apply (inj Some) in H; subst q; try exact Hfb.
  destruct (Qle_bool lo x) eqn:Hlo; simpl; [ | exact Hfb].
  destruct (Qle_bool x hi) eqn:Hhi; [ | exact Hfb].
  split; apply Qle_bool_iff; assumption.
Qed.

Lemma sanitizeNumber_of_sane (q fallback lo hi : Q) :
  lo <= q <= hi ->
  sanitizeNumber (JNum (Fin q)) fallback (Fin lo) (Fin hi) = Some q.
Proof.
  intros [Hlo Hhi]. rewrite sanitizeNumber_cases. simpl.
  apply Qle_bool_iff in Hlo, Hhi. rewrite Hlo, Hhi. reflexivity.
Qed.

Ltac bind_case H x Ex :=
  match type of H with
  | (?m ≫= _) = _ =>
      destruct m as [x | ] eqn:Ex; cbn [mbind option_bind] in H; [ | discriminate H]
  end.

Lemma member_Some (raw : jsval) (k : string) :
  raw <> JUndefined -> raw <> JNull -> member raw k = Some (prop raw k).
Proof. destruct raw; intros H1 H2; try reflexivity; contradiction. Qed.

(** [sanitizeSettings] on a value other than [undefined] and [null]. *)
Lemma sanitizeSettings_unfold (raw : jsval) :
  raw <> JUndefined -> raw <> JNull ->
  sanitizeSettings raw =
  safeWork ← sanitizeNumber (opt_member (prop raw "durations") "work")
                (25 * 60) (Fin 60) (Fin (60 * 60));
  safeShortBreak ← sanitizeNumber (opt_member (prop raw "durations") "shortBreak")
                (5 * 60) (Fin 60) (Fin (30 * 60));
  safeLongBreak ← sanitizeNumber (opt_member (prop raw "durations") "longBreak")
                (15 * 60) (Fin 60) (Fin (60 * 60));
  safeInterval ← sanitizeNumber (prop raw "longBreakInterval") 4 (Fin 0) (Fin 12);
  Some {|
    durations := {|
      work := safeWork; shortBreak := safeShortBreak; longBreak := safeLongBreak
    |};
    longBreakInterval := Math_floor safeInterval;
    autoStartBreaks := ToBoolean (prop raw "autoStartBreaks");
    autoStartWork := ToBoolean (prop raw "autoStartWork");
    notifications := {|
      desktop := strict_ne_false (opt_member (prop raw "notifications") "desktop");
      sound := strict_ne_false (opt_member (prop raw "notifications") "sound");
      soundType :=
        match opt_member (prop raw "notifications") "soundType" with
        | JStr s => if existsb (String.eqb s) SOUND_TYPES then s else "beep"%string
        | _ => "beep"%string
        end
    |};
    tickingSound := {| enabled := ToBoolean (opt_member (prop raw "tickingSound") "enabled") |}
  |}.
Proof.
  intros H1 H2. unfold sanitizeSettings. rewrite !member_Some by assumption.
  cbn [mbind option_bind].
  destruct (sanitizeNumber _ _ _ _); [ | reflexivity]. cbn [mbind option_bind].
  destruct (sanitizeNumber _ _ _ _); [ | reflexivity]. cbn [mbind option_bind].
  destruct (sanitizeNumber _ _ _ _); [ | reflexivity]. cbn [mbind option_bind].
  destruct (sanitizeNumber _ _ _ _); reflexivity.
Qed.

(** What [sanitizeSettings] returns when it returns. *)
Lemma sanitizeSettings_Some (raw : jsval) (s : Settings) :
  sanitizeSettings raw = Some s ->
  raw <> JUndefined /\ raw <> JNull /\
  exists safeWork safeShortBreak safeLongBreak safeInterval : Q,
    sanitizeNumber (opt_member (prop raw "durations") "work")
      (25 * 60) (Fin 60) (Fin (60 * 60)) = Some safeWork /\
    sanitizeNumber (opt_member (prop raw "durations") "shortBreak")
      (5 * 60) (Fin 60) (Fin (30 * 60)) = Some safeShortBreak /\
    sanitizeNumber (opt_member (prop raw "durations") "longBreak")
      (15 * 60) (Fin 60) (Fin (60 * 60)) = Some safeLongBreak /\
    sanitizeNumber (prop raw "longBreakInterval") 4 (Fin 0) (Fin 12)
      = Some safeInterval /\
    s = {|
      durations := {|
        work := safeWork; shortBreak := safeShortBreak; longBreak := safeLongBreak
      |};
      longBreakInterval := Math_floor safeInterval;
      autoStartBreaks := ToBoolean (prop raw "autoStartBreaks");
      autoStartWork := ToBoolean (prop raw "autoStartWork");
      notifications := {|
        desktop := strict_ne_false (opt_member (prop raw "notifications") "desktop");
        sound := strict_ne_false (opt_member (prop raw "notifications") "sound");
        soundType :=
          match opt_member (prop raw "notifications") "soundType" with
          | JStr s => if existsb (String.eqb s) SOUND_TYPES then s else "beep"%string
          | _ => "beep"%string
          end
      |};
      tickingSound :=
        {| enabled := ToBoolean (opt_member (prop raw "tickingSound") "enabled") |}
    |}.
Proof.
  intros H.
  assert (H1 : raw <> JUndefined) by (intros ->; simpl in H; discriminate H).
  assert (H2 : raw <> JNull) by (intros ->; simpl in H; discriminate H).
  split; [exact H1 | split; [exact H2 | ]].
  rewrite sanitizeSettings_unfold in H by assumption.
  bind_case H a Ea.
  bind_case H b Eb.
  bind_case H c Ec.
  bind_case H d Ed.
  apply (inj Some) in H. subst s.
  exists a, b, c, d. repeat (split; [reflexivity | ]). reflexivity.
Qed.

(** X10: [sanitizeSettings] throws exactly on [undefined] and [null]
    and where one of its four conversions to a number throws. *)
Theorem sanitizeSettings_throws_iff (raw : jsval) :
  sanitizeSettings raw = None <->
  raw = JUndefined \/ raw = JNull \/
  ToNumber engine (opt_member (prop raw "durations") "work") = None \/
  ToNumber engine (opt_member (prop raw "durations") "shortBreak") = None \/
  ToNumber engine (opt_member (prop raw "durations") "longBreak") = None \/
  ToNumber engine (prop raw "longBreakInterval") = None.
Proof.
  assert (Hraw : raw = JUndefined \/ raw = JNull \/
                 (raw <> JUndefined /\ raw <> JNull))
    by (destruct raw; auto; right; right; split; discriminate).
  destruct Hraw as [-> | [-> | [H1 H2]]];
    [split; [auto | reflexivity] | split; [auto | reflexivity] | ].
  rewrite sanitizeSettings_unfold by assumption. unfold sanitizeNumber.
  destruct (ToNumber engine (opt_member (prop raw "durations") "work"));
    cbn [mbind option_bind]; [ | split; [auto 10 | reflexivity]].
  destruct (ToNumber engine (opt_member (prop raw "durations") "shortBreak"));
    cbn [mbind option_bind]; [ | split; [auto 10 | reflexivity]].
  destruct (ToNumber engine (opt_member (prop raw "durations") "longBreak"));
    cbn [mbind option_bind]; [ | split; [auto 10 | reflexivity]].
  destruct (ToNumber engine (prop raw "longBreakInterval"));
    cbn [mbind option_bind]; [ | split; [auto 10 | reflexivity]].
  split; [discriminate | ].
  intros [? | [? | [? | [? | [? | ?]]]]]; congruence.
Qed.

Lemma soundType_listed (v : jsval) :
  In (match v with
      | JStr s => if existsb (String.eqb s) SOUND_TYPES then s else "beep"%string
      | _ => "beep"%string
      end) SOUND_TYPES.
Proof.
  assert (Hbeep : In "beep"%string SOUND_TYPES) by (left; reflexivity).
  destruct v; try exact Hbeep.
  destruct (existsb (String.eqb s) SOUND_TYPES) eqn:Ex; [ | exact Hbeep].
  apply existsb_exists in Ex as (x & Hx & Heq).
  apply String.eqb_eq in Heq. subst x. exact Hx.
Qed.

(** Sanitized settings are within the bounds of the data model. *)
Lemma sanitizeSettings_sane (raw : jsval) (s : Settings) :
  sanitizeSettings raw = Some s -> sane s.
Proof.
  intros H.
  apply sanitizeSettings_Some in H as (_ & _ & a & b & c & d & Ha & Hb & Hc & Hd & ->).
  apply sanitizeNumber_bounds in Ha, Hb, Hc, Hd; try (split; discriminate).
  unfold sane; simpl.
  split; [exact Ha | ]. split; [exact Hb | ]. split; [exact Hc | ].
  split; [ | apply soundType_listed].
  unfold Math_floor. split.
  - change 0%Z with (Qfloor (inject_Z 0)). apply Qfloor_resp_le, Hd.
  - change 12%Z with (Qfloor (inject_Z 12)). apply Qfloor_resp_le, Hd.
Qed.

(** The numeric fields of settings in object form. *)
Lemma js_of_settings_numbers (s : Settings) :
  let raw := js_of_settings s in
  opt_member (prop raw "durations") "work" = JNum (Fin (work (durations s))) /\
  opt_member (prop raw "durations") "shortBreak"
    = JNum (Fin (shortBreak (durations s))) /\
  opt_member (prop raw "durations") "longBreak"
    = JNum (Fin (longBreak (durations s))) /\
  prop raw "longBreakInterval" = JNum (Fin (inject_Z (longBreakInterval s))).
Proof. repeat split. Qed.

(** Sanitizing the object form of settings that are within bounds
    returns them. *)
Lemma sanitizeSettings_of_sane (s : Settings) :
  sane s -> sanitizeSettings (js_of_settings s) = Some s.
Proof.
  intros (Hw & Hsb & Hlb & Hlbi & Hst).
  rewrite sanitizeSettings_unfold by discriminate.
  destruct (js_of_settings_numbers s) as (-> & -> & -> & ->).
  rewrite !sanitizeNumber_of_sane; try assumption.
  - cbn [mbind option_bind]. unfold Math_floor. rewrite Qfloor_Z.
    destruct s as [[w sb lb] lbi asb asw [d so st] [en]]. simpl in Hst |- *.
    destruct Hst as [<- | [<- | [<- | []]]]; destruct d, so; reflexivity.
  - split; [change 0 with (inject_Z 0) | change 12 with (inject_Z 12)];
      rewrite <- Zle_Qle; lia.
Qed.

(** The object [mergeSettings] hands to [sanitizeSettings] when it is
    given settings in object form: the same object, whether no legacy
    durations are passed or the settings' own. *)
Lemma merge_of_settings (s : Settings) (legacy : jsval) :
  legacy = JUndefined \/ legacy = js_of_durations (durations s) ->
  mergeSettings (js_of_settings s) legacy = sanitizeSettings (js_of_settings s).
Proof.
  destruct s as [[w sb lb] lbi asb asw [d so st] [en]].
  intros [-> | ->]; reflexivity.
Qed.

Lemma mergeSettings_sane (saved legacy : jsval) (s : Settings) :
  mergeSettings saved legacy = Some s -> sane s.
Proof. unfold mergeSettings. apply sanitizeSettings_sane. Qed.

Lemma mergeSettings_of_sane (s : Settings) (legacy : jsval) :
  sane s ->
  legacy = JUndefined \/ legacy = js_of_durations (durations s) ->
  mergeSettings (js_of_settings s) legacy = Some s.
Proof.
  intros Hs Hl. rewrite merge_of_settings by exact Hl.
  apply sanitizeSettings_of_sane, Hs.
Qed.

(** Without stored settings the merge gives the defaults. *)
Lemma mergeSettings_defaults :
  mergeSettings JUndefined JUndefined = Some DEFAULT_SETTINGS /\
  mergeSettings (JObj []) JUndefined = Some DEFAULT_SETTINGS.
Proof. split; reflexivity. Qed.

Lemma strict_ne_false_iff (v : jsval) :
  strict_ne_false v = false <-> v = JBool false.
Proof.
  split.
  - destruct v as [ | | [ | ] | | | | ]; simpl; intros H;
      try discriminate H; reflexivity.
  - intros ->. reflexivity.
Qed.

(** [Boolean(v)] is [false] on the falsy values and on no other. *)
Lemma ToBoolean_false_iff (v : jsval) : ToBoolean v = false <-> falsy v.
Proof.
  unfold falsy. split.
  - destruct v as [ | | [ | ] | [ | | | q] | s | items | fs]; simpl; intros H;
      try discriminate H; auto 7.
    + right; right; right; right; left. exists q. split; [reflexivity | ].
      apply Qeq_bool_iff. destruct (Qeq_bool q 0); [reflexivity | discriminate H].
    + destruct s; [auto 7 | discriminate H].
  - intros [-> | [-> | [-> | [-> | [(q & -> & Hq) | ->]]]]]; try reflexivity.
    simpl. apply Qeq_bool_iff in Hq. rewrite Hq. reflexivity.
Qed.

(** A fractional duration inside the bounds passes the sanitizer
    unchanged, whatever the engine: no string is converted. *)
Lemma fractional_raw_sanitized :
  let s := {|
    durations := {| work := 181 # 2; shortBreak := 300; longBreak := 900 |};
    longBreakInterval := 4;
    autoStartBreaks := false;
    autoStartWork := false;
    notifications := {| desktop := true; sound := true; soundType := "beep" |};
    tickingSound := {| enabled := false |}
  |} in
  sanitizeSettings fractional_raw = Some s /\
  mergeSettings fractional_raw JUndefined = Some s.
Proof. vm_compute. split; reflexivity. Qed.

(** C4 (amended): for every raw input on which [sanitizeSettings]
    returns, each sanitized duration is a finite number within its
    bounds (work and longBreak in [60, 3600], shortBreak in [60, 1800]);
    it is [Number(input)] itself when that is finite and within the
    bounds, whole or fractional, and the default of the field (1500,
    300, 900) otherwise, never the nearest bound.  The bounds hold as
    well for what [mergeSettings] returns. *)
Theorem sanitized_durations_bounded_or_default (raw : jsval) (s : Settings) :
  sanitizeSettings raw = Some s ->
  let input k := ToNumber engine (opt_member (prop raw "durations") k) in
  (60 <= work (durations s) <= 3600 /\
   60 <= shortBreak (durations s) <= 1800 /\
   60 <= longBreak (durations s) <= 3600) /\
  (exists n : number,
      input "work"%string = Some n /\
      work (durations s) =
        if in_bounds 60 3600 n then finite_value n else 1500) /\
  (exists n : number,
      input "shortBreak"%string = Some n /\
      shortBreak (durations s) =
        if in_bounds 60 1800 n then finite_value n else 300) /\
  (exists n : number,
      input "longBreak"%string = Some n /\
      longBreak (durations s) =
        if in_bounds 60 3600 n then finite_value n else 900) /\
  (forall (legacy : jsval) (merged : Settings),
      mergeSettings raw legacy = Some merged ->
      60 <= work (durations merged) <= 3600 /\
      60 <= shortBreak (durations merged) <= 1800 /\
      60 <= longBreak (durations merged) <= 3600).
Proof.
  intros H input.
  pose proof (sanitizeSettings_sane _ _ H) as (Hw & Hsb & Hlb & _).
  split; [auto | ].
  apply sanitizeSettings_Some in H as (_ & _ & a & b & c & d & Ha & Hb & Hc & _ & ->).
  rewrite sanitizeNumber_cases in Ha, Hb, Hc. subst input. simpl.
  assert (Hcase : forall (v : jsval) (lo hi fb q : Q),
             (n ← ToNumber engine v;
              Some (if in_bounds lo hi n then finite_value n else fb)) = Some q ->
             exists n : number,
               ToNumber engine v = Some n /\
               q = if in_bounds lo hi n then finite_value n else fb).
  { intros v lo hi fb q Hq. destruct (ToNumber engine v) as [n | ]; [ | discriminate Hq].
    exists n. split; [reflexivity | ]. apply (inj Some) in Hq. symmetry. exact Hq. }
  split; [apply Hcase, Ha | ].
  split; [apply Hcase, Hb | ].
  split; [apply Hcase, Hc | ].
  intros legacy merged Hm.
  apply mergeSettings_sane in Hm as (Hw' & Hsb' & Hlb' & _). auto.
Qed.

(** C5: sanitization is idempotent.  For every input, sanitizing the
    sanitized settings again returns them, and an input on which the
    first pass throws gives no settings either way: for
    [sanitizeSettings], and for its entry point [mergeSettings], whether
    the second pass gets no legacy durations or, as [loadSettings] and
    the [updateSettings] message pass them, the settings' own
    durations. *)
Theorem sanitize_idempotent (x legacy : jsval) :
  (sanitizeSettings x ≫= (fun s => sanitizeSettings (js_of_settings s)))
    = sanitizeSettings x /\
  (mergeSettings x legacy ≫= (fun s => mergeSettings (js_of_settings s) JUndefined))
    = mergeSettings x legacy /\
  (mergeSettings x legacy ≫=
     (fun s => mergeSettings (js_of_settings s) (js_of_durations (durations s))))
    = mergeSettings x legacy.
Proof.
  split; [ | split].
  - destruct (sanitizeSettings x) as [s | ] eqn:Es; simpl; [ | reflexivity].
    apply sanitizeSettings_of_sane, (sanitizeSettings_sane x), Es.
  - destruct (mergeSettings x legacy) as [s | ] eqn:Es; simpl; [ | reflexivity].
    apply mergeSettings_of_sane; [ | left; reflexivity].
    apply (mergeSettings_sane x legacy), Es.
  - destruct (mergeSettings x legacy) as [s | ] eqn:Es; simpl; [ | reflexivity].
    apply mergeSettings_of_sane; [ | right; reflexivity].
    apply (mergeSettings_sane x legacy), Es.
Qed.

(** C10: the two notification switches are compared with the literal
    [false], the three other switches are converted by truthiness.  For
    every raw input on which [sanitizeSettings] returns, [desktop] and
    [sound] are [false] exactly when the input holds the boolean
    [false], while [autoStartBreaks], [autoStartWork] and
    [tickingSound.enabled] are [false] exactly when the input is falsy
    ([undefined] or missing, [null], [false], 0, NaN, the empty string)
    and [true] on every other value.  So on 0, [null], [undefined] and
    the empty string the first two are [true] and the other three
    [false]; on truthy values all five are [true]; on [false] all five
    are [false]. *)
Theorem notification_flags_strict_other_flags_truthy (raw : jsval) (s : Settings) :
  sanitizeSettings raw = Some s ->
  (desktop (notifications s) = false <->
     opt_member (prop raw "notifications") "desktop" = JBool false) /\
  (sound (notifications s) = false <->
     opt_member (prop raw "notifications") "sound" = JBool false) /\
  (autoStartBreaks s = false <-> falsy (prop raw "autoStartBreaks")) /\
  (autoStartWork s = false <-> falsy (prop raw "autoStartWork")) /\
  (enabled (tickingSound s) = false <->
     falsy (opt_member (prop raw "tickingSound") "enabled")) /\
  Forall (fun v =>
            flags <$> sanitizeSettings (flags_raw v)
              = Some (true, true, false, false, false) /\
            flags <$> mergeSettings (flags_raw v) JUndefined
              = Some (true, true, false, false, false))
         falsy_not_false /\
  Forall (fun v =>
            flags <$> sanitizeSettings (flags_raw v)
              = Some (true, true, true, true, true) /\
            flags <$> mergeSettings (flags_raw v) JUndefined
              = Some (true, true, true, true, true))
         truthy_examples /\
  flags <$> sanitizeSettings (JObj []) = Some (true, true, false, false, false) /\
  flags <$> mergeSettings (JObj []) JUndefined = Some (true, true, false, false, false) /\
  flags <$> sanitizeSettings (flags_raw (JBool false))
    = Some (false, false, false, false, false).
Proof.
  intros H.
  apply sanitizeSettings_Some in H as (_ & _ & a & b & c & d & _ & _ & _ & _ & ->).
  simpl.
  split; [apply strict_ne_false_iff | ].
  split; [apply strict_ne_false_iff | ].
  do 3 (split; [apply ToBoolean_false_iff | ]).
  split; [repeat constructor | ].
  split; [repeat constructor | ].
  repeat split.
Qed.

End Sanitize.
(** ** The completion handler *)

Section Completion.

Implicit Types (w : World) (r : Readings) (t : TimerState).

Lemma getSessionDuration_eq w session :
  getSessionDuration w session = duration_of (settings w) session.
Proof. destruct session; reflexivity. Qed.

(** The timer state the completion handler leaves. *)
Lemma handleTimerComplete_timerState r w :
  let t := timerState w in
  let next := next_session (settings w) t in
  let auto := should_autostart (settings w) next in
  timerState (handleTimerComplete r w) = {|
    isRunning := auto;
    isPaused := false;
    currentSession := next;
    timeRemaining := duration_of (settings w) next;
    cycleCount := match currentSession t with
                  | WORK => cycleCount t + 1
                  | _ => cycleCount t
                  end;
    startTime := if auto then Some (startNow r) else None;
    pausedAt := None;
    totalPausedTime := 0;
    initialDuration := duration_of (settings w) next;
    tickInterval := if auto then true else tickInterval t
  |}.
Proof.
  destruct w as [s t ss sd st h a]. destruct t as [run pau cur rem cc sta pat tot ini tic].
  unfold handleTimerComplete, next_session, should_autostart, scheduleEndAlarm.
  destruct cur; simpl.
  - destruct ((0 <? longBreakInterval s)
              && (Z.rem (cc + 1) (longBreakInterval s) =? 0)); simpl;
      destruct (autoStartBreaks s); simpl; try reflexivity;
      destruct (startNow r =? 0); reflexivity.
  - destruct (autoStartWork s); simpl; try reflexivity;
      destruct (startNow r =? 0); reflexivity.
  - destruct (autoStartWork s); simpl; try reflexivity;
      destruct (startNow r =? 0); reflexivity.
Qed.

Lemma handleTimerComplete_settings r w :
  settings (handleTimerComplete r w) = settings w.
Proof.
  destruct w as [s t ss sd st h a]. destruct t as [run pau cur rem cc sta pat tot ini tic].
  unfold handleTimerComplete, scheduleEndAlarm.
  destruct cur; simpl;
    repeat match goal with
           | |- context [if ?b then _ else _] => destruct b; simpl
           end; reflexivity.
Qed.

(** The handler saves the state it leaves. *)
Lemma handleTimerComplete_stored r w :
  stored_timerState (handleTimerComplete r w)
  = Some (timerState (handleTimerComplete r w)).
Proof.
  destruct w as [s t ss sd st h a]. destruct t as [run pau cur rem cc sta pat tot ini tic].
  unfold handleTimerComplete, scheduleEndAlarm.
  destruct cur; simpl;
    repeat match goal with
           | |- context [if ?b then _ else _] => destruct b; simpl
           end; reflexivity.
Qed.

(** The alarm after the handler: cleared when the next session does not
    auto-start, otherwise replaced by the deadline of the next session
    (unless the clock reads 0, which [scheduleEndAlarm] takes for a
    missing [startTime]). *)
Lemma handleTimerComplete_alarm r w :
  let next := next_session (settings w) (timerState w) in
  alarm (handleTimerComplete r w) =
  if should_autostart (settings w) next then
    if startNow r =? 0 then alarm w
    else Some (inject_Z (alarmNow r)
               + Math_max (duration_of (settings w) next) 1 * 1000)%Q
  else None.
Proof.
  destruct w as [s t ss sd st h a]. destruct t as [run pau cur rem cc sta pat tot ini tic].
  unfold handleTimerComplete, next_session, should_autostart, scheduleEndAlarm.
  destruct cur; simpl.
  - destruct ((0 <? longBreakInterval s)
              && (Z.rem (cc + 1) (longBreakInterval s) =? 0)); simpl;
      destruct (autoStartBreaks s); simpl; try reflexivity;
      destruct (startNow r =? 0); reflexivity.
  - destruct (autoStartWork s); simpl; try reflexivity;
      destruct (startNow r =? 0); reflexivity.
  - destruct (autoStartWork s); simpl; try reflexivity;
      destruct (startNow r =? 0); reflexivity.
Qed.

(** The history after the handler: one more for today when a work
    session ended, untouched otherwise. *)
Lemma handleTimerComplete_history r w :
  sessionHistory (handleTimerComplete r w) =
  match currentSession (timerState w) with
  | WORK => sessionHistory (updateSessionHistory (today r) w)
  | _ => sessionHistory w
  end.
Proof.
  destruct w as [s t ss sd st h a]. destruct t as [run pau cur rem cc sta pat tot ini tic].
  unfold handleTimerComplete, scheduleEndAlarm.
  destruct cur; simpl;
    repeat match goal with
           | |- context [if ?b then _ else _] => destruct b; simpl
           end; reflexivity.
Qed.

Lemma updateSessionHistory_today (day : string) w :
  sessionHistory (updateSessionHistory day w) !! day
  = Some (default 0 (sessionHistory w !! day) + 1).
Proof.
  unfold updateSessionHistory, count_session. simpl. rewrite lookup_insert_eq.
  destruct (sessionHistory w !! day) as [c | ] eqn:E; simpl.
  - destruct (Z.eqb_spec c 0) as [-> | Hc].
    + rewrite lookup_insert_eq. reflexivity.
    + rewrite E. reflexivity.
  - rewrite lookup_insert_eq. reflexivity.
Qed.

Lemma updateSessionHistory_other (day other : string) w :
  other <> day ->
  sessionHistory (updateSessionHistory day w) !! other = sessionHistory w !! other.
Proof.
  intros Hne. unfold updateSessionHistory, count_session. simpl.
  rewrite lookup_insert_ne by congruence.
  destruct (sessionHistory w !! day) as [c | ]; [destruct (c =? 0) | ];
    try reflexivity; rewrite lookup_insert_ne by congruence; reflexivity.
Qed.

Lemma next_session_changes (s : Settings) t :
  next_session s t <> currentSession t.
Proof.
  unfold next_session. destruct (currentSession t); try discriminate.
  destruct ((0 <? longBreakInterval s)
            && (Z.rem (cycleCount t + 1) (longBreakInterval s) =? 0));
    discriminate.
Qed.

Lemma sessions_after_cycle_trace (rs : list Readings) :
  forall w,
    sessions_after rs w =
    cycle_trace (longBreakInterval (settings w)) (length rs)
      (currentSession (timerState w)) (cycleCount (timerState w)).
Proof.
  induction rs as [ | r rs IH]; intros w; [reflexivity | ].
  cbn [sessions_after length cycle_trace].
  rewrite IH, handleTimerComplete_settings, handleTimerComplete_timerState.
  cbn [currentSession cycleCount]. unfold next_session.
  destruct (currentSession (timerState w)); reflexivity.
Qed.

Lemma cycle_trace_disabled (n : nat) :
  forall session count, ~ In LONG_BREAK (cycle_trace 0 n session count).
Proof.
  induction n as [ | n IH]; intros session count; [intros [] | ].
  cbn [cycle_trace]. intros [H | H].
  - destruct session; discriminate H.
  - exact (IH _ _ H).
Qed.

(** The handler run without interruption: resumed at each [await] in
    turn, a call does what [handleTimerComplete] does. *)
Lemma resume_uninterrupted r w :
  resume_n 7 r Called w = (Returned, handleTimerComplete r w).
Proof.
  destruct w as [s t ss sd st h a]. destruct t as [run pau cur rem cc sta pat tot ini tic].
  destruct s as [du lbi asb asw [de so sty] ts].
  unfold resume_n, resume, update_history_or_move, move_to_next_session,
    handleTimerComplete, updateSessionHistory, scheduleEndAlarm.
  destruct de, cur; simpl;
    repeat match goal with
           | |- context [if ?b then _ else _] => destruct b; simpl
           end; reflexivity.
Qed.

(** Two runs of which the second starts when the first has returned. *)
Lemma interleave_in_turn r1 r2 w :
  interleave (repeat true 7 ++ repeat false 7) r1 r2 Called Called w
  = (Returned, Returned, handleTimerComplete r2 (handleTimerComplete r1 w)).
Proof.
  assert (H1 : forall n sched k1 k2 w0,
             interleave (repeat true n ++ sched) r1 r2 k1 k2 w0 =
             interleave sched r1 r2 (fst (resume_n n r1 k1 w0)) k2
               (snd (resume_n n r1 k1 w0))).
  { induction n as [ | n IH]; intros sched k1 k2 w0; [reflexivity | ].
    cbn [repeat app interleave resume_n].
    destruct (resume r1 k1 w0) as [k1' w']. apply IH. }
  assert (H2 : forall n k1 k2 w0,
             interleave (repeat false n) r1 r2 k1 k2 w0 =
             (k1, fst (resume_n n r2 k2 w0), snd (resume_n n r2 k2 w0))).
  { induction n as [ | n IH]; intros k1 k2 w0; [reflexivity | ].
    cbn [repeat interleave resume_n].
    destruct (resume r2 k2 w0) as [k2' w']. apply IH. }
  rewrite H1, H2, !resume_uninterrupted. reflexivity.
Qed.






(** C6: with [longBreakInterval = 4] and [cycleCount = 0], the first,
    second and third completed work sessions lead to a short break and
    the fourth to a long break, each break leading back to work;
    completing any break leads to work; and with
    [longBreakInterval = 0] no completion, and no sequence of
    completions, leads to a long break. *)
Theorem cycle_substitution w :
  (forall r1 r2 r3 r4 r5 r6 r7,
      longBreakInterval (settings w) = 4 ->
      currentSession (timerState w) = WORK ->
      cycleCount (timerState w) = 0 ->
      sessions_after [r1; r2; r3; r4; r5; r6; r7] w
      = [SHORT_BREAK; WORK; SHORT_BREAK; WORK; SHORT_BREAK; WORK; LONG_BREAK]) /\
  (forall r,
      currentSession (timerState w) <> WORK ->
      currentSession (timerState (handleTimerComplete r w)) = WORK) /\
  (forall r,
      longBreakInterval (settings w) = 0 ->
      currentSession (timerState (handleTimerComplete r w)) <> LONG_BREAK) /\
  (forall rs,
      longBreakInterval (settings w) = 0 ->
      ~ In LONG_BREAK (sessions_after rs w)).
Proof.
  split; [ | split; [ | split]].
  - intros r1 r2 r3 r4 r5 r6 r7 Hint Hwork Hcount.
    rewrite sessions_after_cycle_trace, Hint, Hwork, Hcount. reflexivity.
  - intros r Hbreak. rewrite handleTimerComplete_timerState.
    cbn [currentSession]. unfold next_session.
    destruct (currentSession (timerState w)); congruence.
  - intros r Hint. rewrite handleTimerComplete_timerState.
    cbn [currentSession]. unfold next_session. rewrite Hint.
    destruct (currentSession (timerState w)); discriminate.
  - intros rs Hint. rewrite sessions_after_cycle_trace, Hint.
    apply cycle_trace_disabled.
Qed.

Lemma cycle_substitution_witness :
  longBreakInterval (settings initial_world) = 4 /\
  currentSession (timerState initial_world) = WORK /\
  cycleCount (timerState initial_world) = 0 /\
  sessions_after [morning; morning; morning; morning; morning; morning; morning]
    initial_world
  = [SHORT_BREAK; WORK; SHORT_BREAK; WORK; SHORT_BREAK; WORK; LONG_BREAK].
Proof.
  assert (H4 : longBreakInterval (settings initial_world) = 4) by reflexivity.
  assert (Hw : currentSession (timerState initial_world) = WORK) by reflexivity.
  assert (Hc : cycleCount (timerState initial_world) = 0) by reflexivity.
  split; [exact H4 | split; [exact Hw | split; [exact Hc | ]]].
  exact (proj1 (cycle_substitution initial_world)
           morning morning morning morning morning morning morning H4 Hw Hc).
Defined.

End Completion.
(** ** The state machine *)

Section StateMachine.

Implicit Types (w : World) (r : Readings) (t : TimerState) (now : Z).

Lemma loadSettings_frame w :
  timerState (loadSettings w) = timerState w /\
  stored_timerState (loadSettings w) = stored_timerState w /\
  sessionHistory (loadSettings w) = sessionHistory w /\
  alarm (loadSettings w) = alarm w.
Proof.
  unfold loadSettings.
  destruct (mergeSettings (stored_settings w) (stored_durations w));
    repeat split; reflexivity.
Qed.

Lemma valid_pair_not_paused t : isPaused t = false -> valid_pair t.
Proof. intros H [_ H']. congruence. Qed.

Lemma valid_pair_running t : isRunning t = true -> valid_pair t.
Proof. intros H [H' _]. congruence. Qed.

Lemma valid_pair_flags t t' :
  isRunning t' = isRunning t -> isPaused t' = isPaused t ->
  valid_pair t -> valid_pair t'.
Proof. unfold valid_pair. intros -> ->. exact (fun H => H). Qed.

Lemma pair_invariant_complete r w : pair_invariant (handleTimerComplete r w).
Proof.
  assert (H : valid_pair (timerState (handleTimerComplete r w))).
  { apply valid_pair_not_paused. rewrite handleTimerComplete_timerState. reflexivity. }
  split; [exact H | ].
  intros t Ht. rewrite handleTimerComplete_stored in Ht.
  apply (inj Some) in Ht; subst t. exact H.
Qed.

Lemma pair_invariant_initial : pair_invariant initial_world.
Proof.
  split; [apply valid_pair_not_paused; reflexivity | discriminate].
Qed.

(** With the flags of the state in memory known, the invariant of a
    world that has just been saved. *)
Lemma pair_invariant_saved w :
  valid_pair (timerState w) -> pair_invariant (saveState w).
Proof.
  intros H. split; [exact H | ].
  simpl. intros t Ht. apply (inj Some) in Ht; subst t. exact H.
Qed.

Lemma pair_invariant_memory w w' :
  stored_timerState w' = stored_timerState w ->
  valid_pair (timerState w') ->
  pair_invariant w -> pair_invariant w'.
Proof.
  intros Hst Hv [_ Hs]. split; [exact Hv | ].
  rewrite Hst. exact Hs.
Qed.

Lemma pair_invariant_loadSettings w :
  pair_invariant w -> pair_invariant (loadSettings w).
Proof.
  destruct (loadSettings_frame w) as (Ht & Hs & _).
  intros H. apply (pair_invariant_memory w); [exact Hs | | exact H].
  rewrite Ht. exact (proj1 H).
Qed.

Lemma pair_invariant_startTimer now now' w :
  pair_invariant w -> pair_invariant (startTimer now now' w).
Proof.
  intros H. unfold startTimer.
  destruct (isRunning (timerState w) && negb (isPaused (timerState w))) eqn:Hrun;
    [exact H | ].
  assert (Hgoal : forall w0, isPaused (timerState w0) = false ->
            pair_invariant (startTick (scheduleEndAlarm now' (saveState w0)))).
  { intros w0 Hp.
    assert (Hv : valid_pair (timerState w0)) by (apply valid_pair_not_paused, Hp).
    unfold scheduleEndAlarm.
    destruct (negb (isRunning (timerState (saveState w0)))
              || isPaused (timerState (saveState w0))
              || negb (truthy_time (startTime (timerState (saveState w0)))));
      (split; [apply valid_pair_not_paused; exact Hp
              | simpl; intros t Ht; apply (inj Some) in Ht; subst t; exact Hv]). }
  destruct (isPaused (timerState w)) eqn:Hp; apply Hgoal.
  - reflexivity.
  - destruct (loadSettings_frame w) as (Ht & _). cbn [timerState upd set_timerState isPaused set_initialDuration set_timeRemaining set_totalPausedTime set_startTime set_isRunning]. rewrite Ht. exact Hp.
Qed.

Lemma pair_invariant_pauseTimer now now' w :
  pair_invariant w -> pair_invariant (pauseTimer now now' w).
Proof.
  intros H. unfold pauseTimer.
  destruct (isRunning (timerState w)) eqn:Hrun; simpl; [ | exact H].
  destruct (isPaused (timerState w)) eqn:Hp; simpl; [exact H | ].
  destruct (truthy_time (startTime (timerState w))
            && truthy_num (initialDuration (timerState w)));
    (split; [apply valid_pair_running; simpl; exact Hrun
            | simpl; intros t Ht; apply (inj Some) in Ht; subst t;
              apply valid_pair_running; simpl; exact Hrun]).
Qed.

Lemma pair_invariant_resetTimer w : pair_invariant (resetTimer w).
Proof.
  unfold resetTimer, clearEndAlarm.
  split; [apply valid_pair_not_paused; reflexivity | ].
  simpl. intros t Ht. apply (inj Some) in Ht; subst t.
  apply valid_pair_not_paused. reflexivity.
Qed.

Lemma pair_invariant_tick now r w :
  pair_invariant w -> pair_invariant (tick now r w).
Proof.
  intros H. unfold tick.
  destruct (negb (isRunning (timerState w)) || isPaused (timerState w)) eqn:Hg.
  - apply (pair_invariant_memory w); [reflexivity | | exact H].
    apply (valid_pair_flags (timerState w)); [reflexivity | reflexivity | exact (proj1 H)].
  - destruct (negb (Qeq_bool (timeRemaining (timerState w))
                      (calculatedRemaining (timerState w) now))); [ | exact H].
    match goal with |- pair_invariant (if ?b then _ else _) => destruct b end.
    + apply pair_invariant_complete.
    + apply pair_invariant_saved.
      apply (valid_pair_flags (timerState w)); [reflexivity | reflexivity | exact (proj1 H)].
Qed.

Lemma pair_invariant_onAlarm (name : string) r w :
  pair_invariant w -> pair_invariant (onAlarm name r w).
Proof.
  intros H. unfold onAlarm.
  destruct (String.eqb name "pomodoro-end"); [apply pair_invariant_complete | exact H].
Qed.

Lemma pair_invariant_loadState now r w :
  pair_invariant w -> pair_invariant (loadState now r w).
Proof.
  intros H. apply pair_invariant_loadSettings in H.
  unfold loadState. set (w0 := loadSettings w) in *. clearbody w0.
  destruct (stored_timerState w0) as [stored | ] eqn:Hst.
  - assert (Hv : valid_pair stored) by (exact (proj2 H _ Hst)).
    assert (H1 : pair_invariant (set_timerState stored w0)).
    { apply (pair_invariant_memory w0); [reflexivity | exact Hv | exact H]. }
    cbn [timerState set_timerState].
    repeat match goal with
           | |- pair_invariant (if ?b then _ else _) => destruct b
           end;
      first
        [ apply pair_invariant_complete
        | exact H1
        | apply pair_invariant_saved;
          apply (valid_pair_flags stored); [reflexivity | reflexivity | exact Hv]
        | apply (pair_invariant_memory w0); [reflexivity | | exact H];
          apply (valid_pair_flags stored); [reflexivity | reflexivity | exact Hv] ].
  - apply pair_invariant_saved.
    apply (valid_pair_flags (timerState w0)); [reflexivity | reflexivity | exact (proj1 H)].
Qed.

Lemma pair_invariant_install (s : Settings) w :
  pair_invariant w -> pair_invariant (install_settings s w).
Proof.
  intros H. unfold install_settings.
  match goal with |- pair_invariant (if ?b then _ else _) => destruct b end.
  - apply pair_invariant_saved.
    apply (valid_pair_flags (timerState w)); [reflexivity | reflexivity | exact (proj1 H)].
  - apply (pair_invariant_memory w); [reflexivity | exact (proj1 H) | exact H].
Qed.

Lemma pair_invariant_getState now r now' r' w :
  pair_invariant w -> pair_invariant (getState now r now' r' w).
Proof.
  intros H. apply (pair_invariant_loadState now r) in H.
  unfold getState. set (w0 := loadState now r w) in *. clearbody w0.
  repeat match goal with
         | |- pair_invariant (if ?b then _ else _) => destruct b
         end;
    first
      [ apply pair_invariant_complete
      | exact H
      | apply pair_invariant_saved;
        apply (valid_pair_flags (timerState w0));
        [reflexivity | reflexivity | exact (proj1 H)]
      | apply (pair_invariant_memory w0); [reflexivity | | exact H];
        apply (valid_pair_flags (timerState w0));
        [reflexivity | reflexivity | exact (proj1 H)] ].
Qed.

Lemma pair_invariant_react (e : Event) w :
  pair_invariant w -> pair_invariant (react e w).
Proof.
  intros H. destruct e; simpl.
  - apply pair_invariant_startTimer, H.
  - apply pair_invariant_pauseTimer, H.
  - apply pair_invariant_resetTimer.
  - apply pair_invariant_complete.
  - apply pair_invariant_tick, H.
  - apply pair_invariant_onAlarm, H.
  - apply pair_invariant_loadState, H.
  - apply pair_invariant_getState, H.
  - unfold updateSettings.
    destruct (mergeSettings _ _); [apply pair_invariant_install, H | exact H].
  - unfold updateDurations.
    destruct (mergeSettings _ _); [apply pair_invariant_install, H | exact H].
  - apply (pair_invariant_memory w); [reflexivity | | exact H].
    apply valid_pair_not_paused. reflexivity.
Qed.

Lemma pair_invariant_run (es : list Event) :
  forall w, pair_invariant w -> pair_invariant (run es w).
Proof.
  induction es as [ | e es IH]; intros w H; [exact H | ].
  simpl. apply IH, pair_invariant_react, H.
Qed.

(** C8: in every world reached from the initial one by any sequence of
    events (start, pause, reset, skip, tick, alarm, reload of the saved
    state, state query, settings and durations updates, restart of the
    worker), the timer state in memory, and the one in storage, never
    has [isRunning = false] together with [isPaused = true]. *)
Theorem running_paused_pair_never_invalid (es : list Event) :
  let w := run es initial_world in
  ~ (isRunning (timerState w) = false /\ isPaused (timerState w) = true) /\
  (forall t, stored_timerState w = Some t ->
             ~ (isRunning t = false /\ isPaused t = true)).
Proof.
  exact (pair_invariant_run es initial_world pair_invariant_initial).
Qed.

(** Once the stored settings are the object form of settings within
    bounds, and the stored durations theirs, [loadSettings] reads back
    exactly these settings. *)
Lemma loadSettings_stable (s : Settings) w :
  sane s ->
  stored_settings w = js_of_settings s ->
  stored_durations w = js_of_durations (durations s) ->
  settings (loadSettings w) = s /\
  stored_settings (loadSettings w) = js_of_settings s /\
  stored_durations (loadSettings w) = js_of_durations (durations s).
Proof.
  intros Hs Hst Hd. unfold loadSettings. rewrite Hst, Hd.
  rewrite mergeSettings_of_sane; [ | exact Hs | right; reflexivity].
  repeat split; reflexivity.
Qed.

Lemma install_settings_running (s : Settings) w :
  isRunning (timerState w) = true ->
  install_settings s w =
  set_stored_durations (js_of_durations (durations s))
    (set_stored_settings (js_of_settings s) (set_settings s w)).
Proof.
  intros Hrun. unfold install_settings. cbn [timerState set_stored_durations
    set_stored_settings set_settings]. rewrite Hrun. reflexivity.
Qed.

(** X6: while the timer state in memory is that of a session under way
    ([isRunning = true], paused or not), an [updateSettings] message
    leaves the timer state, with its [initialDuration] and
    [timeRemaining], and the saved timer state as they are.  When the
    request is sanitized without an exception, the sanitized settings
    are installed and the new durations are used by the sessions that
    start afterwards: the one the next completion enters, and the work
    session after a reset and start; when the sanitization throws, the
    message changes nothing. *)
Theorem updateSettings_keeps_running_session (request_settings : jsval) w :
  isRunning (timerState w) = true ->
  let w' := updateSettings request_settings w in
  timerState w' = timerState w /\
  initialDuration (timerState w') = initialDuration (timerState w) /\
  timeRemaining (timerState w') = timeRemaining (timerState w) /\
  stored_timerState w' = stored_timerState w /\
  match mergeSettings request_settings (opt_member request_settings "durations") with
  | Some s =>
      settings w' = s /\
      (forall r,
          let t2 := timerState (handleTimerComplete r w') in
          initialDuration t2 = duration_of s (currentSession t2) /\
          timeRemaining t2 = duration_of s (currentSession t2)) /\
      (forall now now',
          let t2 := timerState (startTimer now now' (resetTimer w')) in
          initialDuration t2 = work (durations s) /\
          timeRemaining t2 = work (durations s))
  | None => w' = w
  end.
Proof.
  intros Hrun w'. subst w'. unfold updateSettings.
  destruct (mergeSettings request_settings (opt_member request_settings "durations"))
    as [s | ] eqn:Hs; [ | repeat split; reflexivity].
  rewrite (install_settings_running s w Hrun).
  cbn [timerState stored_timerState settings
       set_stored_durations set_stored_settings set_settings].
  do 5 (split; [reflexivity | ]).
  apply mergeSettings_sane in Hs.
  set (w' := set_stored_durations _ _).
  split.
  - intros r. rewrite handleTimerComplete_timerState.
    split; reflexivity.
  - intros now now'.
    destruct (loadSettings_stable s w' Hs eq_refl eq_refl) as (H1 & H2 & H3).
    unfold resetTimer, clearEndAlarm, startTimer.
    cbn [timerState upd set_timerState saveState set_stored_timerState set_alarm
         isRunning isPaused set_isRunning set_isPaused set_startTime set_pausedAt
         set_totalPausedTime set_cycleCount set_currentSession set_timeRemaining
         set_initialDuration andb negb settings stored_settings stored_durations
         currentSession].
    set (w1 := set_alarm _ _).
    assert (Hst : settings (loadSettings w1) = s).
    { apply loadSettings_stable; [exact Hs | | ]; subst w1; cbn; assumption. }
    unfold scheduleEndAlarm, startTick.
    match goal with
    | |- context [if ?b then _ else _] => destruct b
    end;
      cbn [timerState upd set_timerState saveState set_stored_timerState set_alarm
           initialDuration timeRemaining set_tickInterval set_isRunning set_startTime
           set_totalPausedTime set_timeRemaining set_initialDuration];
      unfold getSessionDuration;
      cbn [settings set_timerState]; rewrite Hst;
      destruct (loadSettings_frame w1) as (Ht & _); rewrite Ht;
      subst w1; split; reflexivity.
Qed.

(** A paused session in storage, the worker restarted, and the popup's
    [updateSettings] as the first message, whatever the engine: the
    saved session is replaced by an idle timer. *)
Lemma interrupted_world_updated :
  let w := interrupted_world in
  let w' := updateSettings popup_save_request w in
  (exists st : TimerState,
      stored_timerState w = Some st /\
      isRunning st = true /\ isPaused st = true /\
      (timeRemaining st == 1200)%Q /\ (initialDuration st == 1500)%Q) /\
  (exists st' : TimerState,
      stored_timerState w' = Some st' /\
      isRunning st' = false /\ isPaused st' = false /\
      (timeRemaining st' == 600)%Q /\ (initialDuration st' == 600)%Q /\
      startTime st' = None) /\
  (let t := timerState (getState 1767258400000 morning 1767258400000 morning w') in
   isRunning t = false /\ isPaused t = false /\
   (timeRemaining t == 600)%Q /\ (initialDuration t == 600)%Q).
Proof.
  split; [ | split].
  - eexists. split; [vm_compute; reflexivity | ]. repeat split.
  - eexists. split; [vm_compute; reflexivity | ]. repeat split.
  - vm_compute. repeat split.
Qed.

End StateMachine.

(** ** Elapsed time *)

Section ElapsedTime.

Local Open Scope Q_scope.
Implicit Types (w : World) (r : Readings) (t : TimerState) (now : Z).

Lemma Qle_bool_false (a b : Q) : Qle_bool a b = false -> b < a.
Proof.
  intros H. apply Qnot_le_lt. intros Hle.
  apply Qle_bool_iff in Hle. congruence.
Qed.

Lemma Math_max_cases (a b : Q) :
  (a <= b /\ Math_max a b = b) \/ (b < a /\ Math_max a b = a).
Proof.
  unfold Math_max. destruct (Qle_bool a b) eqn:E.
  - left. split; [apply Qle_bool_iff, E | reflexivity].
  - right. split; [apply Qle_bool_false, E | reflexivity].
Qed.

Lemma Math_max_Qmax (a b : Q) : Math_max a b == Qmax a b.
Proof.
  destruct (Math_max_cases a b) as [[H ->] | [H ->]].
  - symmetry. apply Q.max_r, H.
  - symmetry. apply Q.max_l, Qlt_le_weak, H.
Qed.

(** [Math.floor(ms / 1000)] of whole milliseconds is the integer
    quotient. *)
Lemma floor_seconds (ms : Z) : Math_floor (inject_Z ms / 1000) = (ms / 1000)%Z.
Proof. unfold Math_floor. symmetry. apply (Zdiv_Qdiv ms 1000). Qed.

Lemma calculatedRemaining_seconds t now :
  calculatedRemaining t now =
  Math_max 0 (initialDuration t
              - inject_Z ((now - num_of (startTime t) - totalPausedTime t) / 1000)%Z).
Proof. unfold calculatedRemaining. rewrite floor_seconds. reflexivity. Qed.

(** The tick's value is the specification's law. *)
Lemma calculatedRemaining_law t (start : Z) now :
  startTime t = Some start ->
  calculatedRemaining t now
  == elapsed_time_law start (totalPausedTime t) (initialDuration t) now.
Proof.
  intros Hs. unfold calculatedRemaining, elapsed_time_law, Math_floor.
  rewrite Hs. apply Math_max_Qmax.
Qed.

Lemma calculatedRemaining_nonneg t now : 0 <= calculatedRemaining t now.
Proof.
  unfold calculatedRemaining.
  destruct (Math_max_cases 0
              (initialDuration t
               - inject_Z (Math_floor
                   (inject_Z (now - num_of (startTime t) - totalPausedTime t) / 1000))))
    as [[H ->] | [H ->]]; lra.
Qed.

(** The value depends on the three stored quantities only. *)
Lemma calculatedRemaining_basis t t' now :
  startTime t' = startTime t ->
  totalPausedTime t' = totalPausedTime t ->
  initialDuration t' = initialDuration t ->
  calculatedRemaining t' now = calculatedRemaining t now.
Proof. unfold calculatedRemaining. intros -> -> ->. reflexivity. Qed.

(** Later readings give no more remaining time, and within a second
    at most one second less. *)
Lemma calculatedRemaining_later t now now' :
  (now <= now')%Z ->
  calculatedRemaining t now' <= calculatedRemaining t now.
Proof.
  intros Hle. rewrite !calculatedRemaining_seconds.
  set (base := (num_of (startTime t) + totalPausedTime t)%Z).
  assert (Hdiv : ((now - num_of (startTime t) - totalPausedTime t) / 1000
                  <= (now' - num_of (startTime t) - totalPausedTime t) / 1000)%Z).
  { apply Z.div_le_mono; lia. }
  rewrite Zle_Qle in Hdiv.
  destruct (Math_max_cases 0 (initialDuration t
              - inject_Z ((now - num_of (startTime t) - totalPausedTime t) / 1000)%Z))
    as [[H1 ->] | [H1 ->]];
  destruct (Math_max_cases 0 (initialDuration t
              - inject_Z ((now' - num_of (startTime t) - totalPausedTime t) / 1000)%Z))
    as [[H2 ->] | [H2 ->]]; lra.
Qed.

Lemma calculatedRemaining_within_second t now now' :
  (now <= now' < now + 1000)%Z ->
  calculatedRemaining t now - 1 <= calculatedRemaining t now'.
Proof.
  intros Hle. rewrite !calculatedRemaining_seconds.
  assert (Hdiv : ((now' - num_of (startTime t) - totalPausedTime t) / 1000
                  <= (now - num_of (startTime t) - totalPausedTime t) / 1000 + 1)%Z).
  { rewrite <- (Z.div_add _ 1 1000) by lia. apply Z.div_le_mono; lia. }
  rewrite Zle_Qle, inject_Z_plus in Hdiv. change (inject_Z 1) with 1 in Hdiv.
  destruct (Math_max_cases 0 (initialDuration t
              - inject_Z ((now - num_of (startTime t) - totalPausedTime t) / 1000)%Z))
    as [[H1 ->] | [H1 ->]];
  destruct (Math_max_cases 0 (initialDuration t
              - inject_Z ((now' - num_of (startTime t) - totalPausedTime t) / 1000)%Z))
    as [[H2 ->] | [H2 ->]]; lra.
Qed.

(** A tick that does not reach zero keeps the session running and
    touches nothing but [timeRemaining] (and the saved copy). *)
Lemma tick_keeps_basis now r w :
  isRunning (timerState w) = true ->
  isPaused (timerState w) = false ->
  0 < calculatedRemaining (timerState w) now ->
  let t' := timerState (tick now r w) in
  isRunning t' = true /\ isPaused t' = false /\
  startTime t' = startTime (timerState w) /\
  totalPausedTime t' = totalPausedTime (timerState w) /\
  initialDuration t' = initialDuration (timerState w) /\
  timeRemaining t' == calculatedRemaining (timerState w) now.
Proof.
  intros Hrun Hp Hpos. unfold tick. rewrite Hrun, Hp. cbn [negb orb].
  destruct (Qeq_bool (timeRemaining (timerState w))
              (calculatedRemaining (timerState w) now)) eqn:E; cbn [negb].
  - apply Qeq_bool_iff in E. repeat split; assumption.
  - cbn [timerState upd set_timerState timeRemaining set_timeRemaining].
    destruct (Qle_bool (calculatedRemaining (timerState w) now) 0) eqn:E0.
    + apply Qle_bool_iff in E0. lra.
    + cbn. repeat split; try assumption; reflexivity.
Qed.

Lemma ticks_keep_basis (times : list Z) now r :
  forall w,
    isRunning (timerState w) = true ->
    isPaused (timerState w) = false ->
    Forall (fun m => (m <= now)%Z) times ->
    0 < calculatedRemaining (timerState w) now ->
    let t' := timerState (ticks times r w) in
    isRunning t' = true /\ isPaused t' = false /\
    startTime t' = startTime (timerState w) /\
    totalPausedTime t' = totalPausedTime (timerState w) /\
    initialDuration t' = initialDuration (timerState w).
Proof.
  induction times as [ | m times IH]; intros w Hrun Hp Hall Hpos.
  - repeat split; assumption.
  - inversion Hall as [ | ? ? Hm Hrest]; subst.
    assert (Hposm : 0 < calculatedRemaining (timerState w) m).
    { pose proof (calculatedRemaining_later (timerState w) m now Hm). lra. }
    destruct (tick_keeps_basis m r w Hrun Hp Hposm) as (R & P & S & T & I & _).
    cbn [ticks fold_left]. fold (ticks times r (tick m r w)).
    destruct (IH (tick m r w) R P Hrest) as (R' & P' & S' & T' & I').
    + rewrite (calculatedRemaining_basis (timerState w)); assumption.
    + repeat split; congruence.
Qed.

Lemma recomputed_then_complete r w0 (value : Q) :
  timeRemaining (timerState w0) == value ->
  recomputed r
    (if Qle_bool (timeRemaining (timerState w0)) 0
     then handleTimerComplete r w0 else w0)
    value.
Proof.
  intros Hv.
  destruct (Qle_bool (timeRemaining (timerState w0)) 0) eqn:E.
  - apply Qle_bool_iff in E. split; [intros Hpos; lra | ].
    intros _. right. exists w0. split; [exact Hv | reflexivity].
  - split; [intros _; exact Hv | intros _; left; exact Hv].
Qed.

Lemma pauseTimer_timerState now now' w :
  isRunning (timerState w) = true ->
  isPaused (timerState w) = false ->
  let t := timerState w in
  timerState (pauseTimer now now' w) = {|
    isRunning := true;
    isPaused := true;
    currentSession := currentSession t;
    timeRemaining :=
      if truthy_time (startTime t) && truthy_num (initialDuration t)
      then calculatedRemaining t now else timeRemaining t;
    cycleCount := cycleCount t;
    startTime := startTime t;
    pausedAt := Some now';
    totalPausedTime := totalPausedTime t;
    initialDuration := initialDuration t;
    tickInterval := false
  |}.
Proof.
  intros Hrun Hp. unfold pauseTimer. rewrite Hrun, Hp. cbn [negb orb].
  destruct w as [s t ss sd st h a].
  destruct t as [run pau cur rem cc sta pat tot ini tic].
  cbn [timerState isRunning] in Hrun. subst run.
  cbn [timerState startTime initialDuration].
  destruct (truthy_time sta && truthy_num ini); reflexivity.
Qed.

Lemma resume_timerState now now' w :
  isRunning (timerState w) = true ->
  isPaused (timerState w) = true ->
  let t := timerState w in
  timerState (startTimer now now' w) = {|
    isRunning := true;
    isPaused := false;
    currentSession := currentSession t;
    timeRemaining := timeRemaining t;
    cycleCount := cycleCount t;
    startTime := startTime t;
    pausedAt := None;
    totalPausedTime := (totalPausedTime t + (now - num_of (pausedAt t)))%Z;
    initialDuration := initialDuration t;
    tickInterval := true
  |}.
Proof.
  intros Hrun Hp. unfold startTimer. rewrite Hrun, Hp. cbn [negb andb].
  destruct w as [s t ss sd st h a].
  destruct t as [run pau cur rem cc sta pat tot ini tic].
  cbn [timerState isRunning] in Hrun. subst run.
  unfold scheduleEndAlarm, startTick.
  match goal with
  | |- context [if ?b then _ else _] => destruct b
  end; reflexivity.
Qed.

Lemma truthy_time_Some (start : Z) : start <> 0%Z -> truthy_time (Some start) = true.
Proof. intros H. simpl. apply Z.eqb_neq in H. rewrite H. reflexivity. Qed.

Lemma truthy_num_nonzero (q : Q) : ~ q == 0 -> truthy_num q = true.
Proof.
  intros H. unfold truthy_num. destruct (Qeq_bool q 0) eqn:E; [ | reflexivity].
  apply Qeq_bool_iff in E. contradiction.
Qed.

(** C1: the elapsed-time law.  In a running, unpaused state with a
    start time and a duration, each of the three places that recompute
    the remaining time gives
    [max(0, initialDuration - floor((now - startTime - totalPausedTime) / 1000))]:
    the value a tick computes, and stores (running the completion
    handler when it is 0); the value stored after a tick however many
    earlier ticks ran or were missed; the value a pause stores; and the
    value a reload of this state computes and stores (running the
    completion handler at once when it is 0). *)
Theorem elapsed_time_law_recomputed (start now : Z) r w :
  let t := timerState w in
  let law := elapsed_time_law start (totalPausedTime t) (initialDuration t) in
  isRunning t = true ->
  isPaused t = false ->
  startTime t = Some start ->
  start <> 0%Z ->
  ~ initialDuration t == 0 ->
  calculatedRemaining t now == law now /\
  recomputed r (tick now r w) (law now) /\
  (forall missed : list Z,
      Forall (fun m => (m <= now)%Z) missed ->
      0 < law now ->
      timeRemaining (timerState (tick now r (ticks missed r w))) == law now) /\
  (forall now' : Z,
      timeRemaining (timerState (pauseTimer now now' w)) == law now) /\
  (forall w' : World,
      stored_timerState w' = Some t ->
      recomputed r (loadState now r w') (law now)).
Proof.
  intros t law. subst law. intros Hrun Hp Hstart Hnz Hdur.
  assert (Hlaw : calculatedRemaining t now
                 == elapsed_time_law start (totalPausedTime t) (initialDuration t) now)
    by (apply calculatedRemaining_law, Hstart).
  split; [exact Hlaw | ].
  split; [ | split; [ | split]].
  - unfold tick. fold t. rewrite Hrun, Hp. cbn [negb orb].
    destruct (Qeq_bool (timeRemaining t) (calculatedRemaining t now)) eqn:E;
      cbn [negb].
    + apply Qeq_bool_iff in E.
      assert (H : timeRemaining (timerState w)
                  == elapsed_time_law start (totalPausedTime t) (initialDuration t) now)
        by (fold t; rewrite E; exact Hlaw).
      split; [intros _ | intros _; left]; exact H.
    + cbn [timerState upd set_timerState timeRemaining set_timeRemaining].
      destruct (Qle_bool (calculatedRemaining t now) 0) eqn:E0.
      * apply Qle_bool_iff in E0. split; [intros Hpos; lra | ].
        intros _. right. eexists. split; [ | reflexivity]. exact Hlaw.
      * split; [intros _ | intros _; left]; exact Hlaw.
  - intros missed Hall Hpos.
    assert (Hpos' : 0 < calculatedRemaining t now) by lra.
    destruct (ticks_keep_basis missed now r w Hrun Hp Hall Hpos')
      as (R & P & S & T & I).
    assert (Hsame : calculatedRemaining (timerState (ticks missed r w)) now
                    = calculatedRemaining t now)
      by (apply calculatedRemaining_basis; assumption).
    destruct (tick_keeps_basis now r (ticks missed r w) R P) as (_ & _ & _ & _ & _ & Hrem).
    + rewrite Hsame. exact Hpos'.
    + rewrite Hrem, Hsame. exact Hlaw.
  - intros now'. rewrite (pauseTimer_timerState now now' w Hrun Hp).
    cbn [timeRemaining]. fold t.
    rewrite Hstart, (truthy_time_Some start Hnz), (truthy_num_nonzero _ Hdur).
    exact Hlaw.
  - intros w' Hst. unfold loadState.
    destruct (loadSettings_frame w') as (_ & Hs & _). rewrite Hs, Hst.
    cbn [timerState set_timerState]. rewrite Hrun, Hp, Hstart.
    rewrite (truthy_time_Some start Hnz). cbn [negb andb].
    apply recomputed_then_complete.
    cbn [timerState upd set_timerState timeRemaining set_timeRemaining
         set_initialDuration initialDuration totalPausedTime startTime].
    rewrite <- Hstart. exact Hlaw.
Qed.




(** The remaining time of a session reloaded after a restart of the
    worker is not kept up to date: 1490 seconds ten seconds into the
    session, and 1470 after a pause twenty seconds later and a resume
    at the same instant, whatever the engine. *)
Lemma reloaded_world_paused_and_resumed :
  let t := timerState reloaded_world in
  let t' := timerState (startTimer 1767258030000 1767258030000
                          (pauseTimer 1767258030000 1767258030000 reloaded_world)) in
  isRunning t = true /\ isPaused t = false /\
  timeRemaining t == 1490 /\
  timeRemaining t' == 1470.
Proof. vm_compute. repeat split; reflexivity. Qed.

End ElapsedTime.


(** * Further properties of the background script *)

Section Reachable.

Local Open Scope Q_scope.
Implicit Types (w : World) (r : Readings) (t : TimerState) (now : Z).

Lemma DEFAULT_SETTINGS_sane : sane DEFAULT_SETTINGS.
Proof.
  unfold sane. simpl.
  repeat split; try discriminate; try lia.
  left. reflexivity.
Qed.

Lemma duration_of_bounds (s : Settings) (session : SessionType) :
  sane s -> 60 <= duration_of s session <= 3600.
Proof.
  intros (Hw & Hsb & Hlb & _). destruct session; simpl; lra.
Qed.

Lemma loadSettings_sane w : sane (settings (loadSettings w)).
Proof.
  unfold loadSettings.
  destruct (mergeSettings (stored_settings w) (stored_durations w)) as [s | ] eqn:E.
  - exact (mergeSettings_sane _ _ _ E).
  - exact DEFAULT_SETTINGS_sane.
Qed.

Lemma scheduleEndAlarm_frame now w :
  timerState (scheduleEndAlarm now w) = timerState w /\
  settings (scheduleEndAlarm now w) = settings w /\
  stored_timerState (scheduleEndAlarm now w) = stored_timerState w /\
  sessionHistory (scheduleEndAlarm now w) = sessionHistory w.
Proof.
  unfold scheduleEndAlarm.
  destruct (negb (isRunning (timerState w)) || isPaused (timerState w)
            || negb (truthy_time (startTime (timerState w))));
    repeat split; reflexivity.
Qed.

(** The timer state [startTimer] leaves and saves, when it acts on a
    state that is not paused: a fresh start. *)
Lemma startTimer_fresh now now' w :
  isRunning (timerState w) = false ->
  isPaused (timerState w) = false ->
  let w0 := loadSettings w in
  let d := duration_of (settings w0) (currentSession (timerState w)) in
  let started := set_initialDuration d
                   (set_timeRemaining d
                      (set_totalPausedTime 0
                         (set_startTime (Some now)
                            (set_isRunning true (timerState w))))) in
  timerState (startTimer now now' w) = set_tickInterval true started /\
  stored_timerState (startTimer now now' w) = Some started /\
  settings (startTimer now now' w) = settings w0 /\
  sessionHistory (startTimer now now' w) = sessionHistory w.
Proof.
  intros Hrun Hp.
  destruct (loadSettings_frame w) as (Ht & Hs & Hh & Ha).
  unfold startTimer. set (w0 := loadSettings w) in *. clearbody w0.
  rewrite Hrun, Hp. cbn [andb negb].
  rewrite getSessionDuration_eq.
  destruct w0 as [s0 t0 ss0 sd0 st0 h0 a0].
  cbn [timerState stored_timerState sessionHistory alarm] in Ht, Hs, Hh, Ha.
  subst t0 st0 h0 a0.
  destruct (timerState w) as [run pau cur rem cc sta pat tot ini tic].
  cbn [isRunning isPaused] in Hrun, Hp. subst run pau.
  unfold startTick, scheduleEndAlarm. world_simpl. cbn [negb orb].
  destruct (negb (truthy_time (Some now))); world_simpl; repeat split; reflexivity.
Qed.

(** What [startTimer] leaves and saves when it resumes a paused state. *)
Lemma startTimer_resume now now' w :
  isPaused (timerState w) = true ->
  isRunning (timerState w) = true ->
  let resumed := set_pausedAt None
                   (set_isPaused false
                      (set_totalPausedTime
                         (totalPausedTime (timerState w)
                          + (now - num_of (pausedAt (timerState w))))%Z
                         (timerState w))) in
  timerState (startTimer now now' w) = set_tickInterval true resumed /\
  stored_timerState (startTimer now now' w) = Some resumed /\
  settings (startTimer now now' w) = settings w /\
  sessionHistory (startTimer now now' w) = sessionHistory w.
Proof.
  intros Hp Hrun. unfold startTimer. rewrite Hrun, Hp. cbn [andb negb].
  match goal with
  | |- context [scheduleEndAlarm now' ?x] =>
      destruct (scheduleEndAlarm_frame now' x) as (F1 & F2 & F3 & F4)
  end.
  unfold startTick. world_simpl.
  rewrite F1, F2, F3, F4. world_simpl.
  repeat split; reflexivity.
Qed.

Lemma pauseTimer_frame now now' w :
  settings (pauseTimer now now' w) = settings w /\
  sessionHistory (pauseTimer now now' w) = sessionHistory w /\
  (isRunning (timerState w) = true -> isPaused (timerState w) = false ->
   stored_timerState (pauseTimer now now' w) = Some (timerState (pauseTimer now now' w)) /\
   alarm (pauseTimer now now' w) = None).
Proof.
  unfold pauseTimer.
  destruct (isRunning (timerState w)) eqn:Hrun; cbn [negb orb].
  - destruct (isPaused (timerState w)) eqn:Hp.
    + repeat split; intros; discriminate.
    + destruct (truthy_time (startTime (timerState w))
                && truthy_num (initialDuration (timerState w)));
        repeat split; reflexivity.
  - repeat split; intros; discriminate.
Qed.

(** ** An idle timer shows the full duration *)

Lemma shows_full_running (s : Settings) t :
  isRunning t = true -> shows_full_duration s t.
Proof. intros H H'. congruence. Qed.

Lemma shows_full_fresh (s : Settings) t :
  timeRemaining t = duration_of s (currentSession t) ->
  initialDuration t = timeRemaining t ->
  shows_full_duration s t.
Proof. intros H1 H2 _. rewrite H1, H2, H1. split; reflexivity. Qed.

Lemma idle_invariant_saved w :
  shows_full_duration (settings w) (timerState w) -> idle_invariant (saveState w).
Proof.
  intros H. split; [exact H | ].
  world_simpl. intros st Hst Hidle. apply (inj Some) in Hst; subst st. exact (proj2 (H Hidle)).
Qed.

Lemma idle_invariant_memory w w' :
  stored_timerState w' = stored_timerState w ->
  shows_full_duration (settings w') (timerState w') ->
  idle_invariant w -> idle_invariant w'.
Proof.
  intros Hst Hm [_ Hs]. split; [exact Hm | ]. rewrite Hst. exact Hs.
Qed.

Lemma idle_invariant_complete r w : idle_invariant (handleTimerComplete r w).
Proof.
  assert (H : shows_full_duration (settings (handleTimerComplete r w))
                (timerState (handleTimerComplete r w))).
  { rewrite handleTimerComplete_settings, handleTimerComplete_timerState.
    apply shows_full_fresh; reflexivity. }
  split; [exact H | ].
  rewrite handleTimerComplete_stored. intros st Hst Hidle.
  apply (inj Some) in Hst; subst st. exact (proj2 (H Hidle)).
Qed.

(** The idle branch shared by [loadState] and the [getState] case: the
    remaining time is set to the session's duration unless it is equal. *)
Lemma idle_invariant_refreshed w :
  isRunning (timerState w) = false ->
  (initialDuration (timerState w) == timeRemaining (timerState w)) ->
  (forall st, stored_timerState w = Some st ->
              isRunning st = false -> initialDuration st == timeRemaining st) ->
  let expectedDuration := getSessionDuration w (currentSession (timerState w)) in
  idle_invariant
    (if negb (Qeq_bool (timeRemaining (timerState w)) expectedDuration)
     then saveState
            (upd (set_initialDuration expectedDuration)
               (upd (set_timeRemaining expectedDuration) w))
     else w).
Proof.
  intros Hidle Hini Hst expectedDuration. subst expectedDuration.
  rewrite getSessionDuration_eq.
  destruct (Qeq_bool (timeRemaining (timerState w))
              (duration_of (settings w) (currentSession (timerState w)))) eqn:E;
    cbn [negb].
  - apply Qeq_bool_iff in E. split; [ | exact Hst].
    intros _. split; [exact E | exact Hini].
  - apply idle_invariant_saved. world_simpl.
    apply shows_full_fresh; reflexivity.
Qed.

Lemma idle_invariant_startTimer now now' w :
  pair_invariant w -> idle_invariant w -> idle_invariant (startTimer now now' w).
Proof.
  intros Hpair H.
  destruct (isPaused (timerState w)) eqn:Hp.
  - assert (Hrun : isRunning (timerState w) = true).
    { destruct (isRunning (timerState w)) eqn:E; [reflexivity | ].
      exfalso. apply (proj1 Hpair). split; assumption. }
    destruct (startTimer_resume now now' w Hp Hrun) as (Ht & Hs & _).
    split.
    + rewrite Ht. apply shows_full_running. world_simpl. exact Hrun.
    + rewrite Hs. intros st Hst Hidle. apply (inj Some) in Hst; subst st.
      world_simpl. congruence.
  - destruct (isRunning (timerState w)) eqn:Hrun.
    + unfold startTimer. rewrite Hrun, Hp. exact H.
    + destruct (startTimer_fresh now now' w Hrun Hp) as (Ht & Hs & _).
      split.
      * rewrite Ht. apply shows_full_running. reflexivity.
      * rewrite Hs. intros st Hst Hidle. apply (inj Some) in Hst; subst st. discriminate Hidle.
Qed.

Lemma idle_invariant_pauseTimer now now' w :
  idle_invariant w -> idle_invariant (pauseTimer now now' w).
Proof.
  intros H.
  destruct (isRunning (timerState w)) eqn:Hrun;
    [destruct (isPaused (timerState w)) eqn:Hp | ].
  - unfold pauseTimer. rewrite Hrun, Hp. exact H.
  - destruct (pauseTimer_frame now now' w) as (_ & _ & Hf).
    destruct (Hf Hrun Hp) as (Hs & _).
    pose proof (pauseTimer_timerState now now' w Hrun Hp) as Ht. cbv zeta in Ht.
    split.
    + apply shows_full_running. rewrite Ht. reflexivity.
    + rewrite Hs, Ht. intros st Hst Hidle. apply (inj Some) in Hst; subst st. discriminate Hidle.
  - unfold pauseTimer. rewrite Hrun. exact H.
Qed.

Lemma idle_invariant_resetTimer w : idle_invariant (resetTimer w).
Proof.
  unfold resetTimer.
  set (w0 := loadSettings w). clearbody w0.
  split.
  - world_simpl. apply shows_full_fresh; reflexivity.
  - world_simpl. intros st Hst _. apply (inj Some) in Hst; subst st. reflexivity.
Qed.

Lemma idle_invariant_tick now r w :
  idle_invariant w -> idle_invariant (tick now r w).
Proof.
  intros H. unfold tick.
  destruct (negb (isRunning (timerState w)) || isPaused (timerState w)) eqn:Hg.
  - apply (idle_invariant_memory w); [reflexivity | | exact H].
    world_simpl. intros Hidle. exact (proj1 H Hidle).
  - apply orb_false_elim in Hg as (Hrun & _). apply negb_false_iff in Hrun.
    destruct (negb (Qeq_bool (timeRemaining (timerState w))
                      (calculatedRemaining (timerState w) now))); [ | exact H].
    match goal with |- idle_invariant (if ?b then _ else _) => destruct b end.
    + apply idle_invariant_complete.
    + apply idle_invariant_saved, shows_full_running. exact Hrun.
Qed.

Lemma idle_invariant_onAlarm (name : string) r w :
  idle_invariant w -> idle_invariant (onAlarm name r w).
Proof.
  intros H. unfold onAlarm.
  destruct (String.eqb name "pomodoro-end"); [apply idle_invariant_complete | exact H].
Qed.

Lemma valid_pair_idle t :
  valid_pair t -> isRunning t = false -> isPaused t = false.
Proof.
  intros Hv Hrun. destruct (isPaused t) eqn:Hp; [ | reflexivity].
  exfalso. apply Hv. split; assumption.
Qed.

Lemma idle_invariant_loadState now r w :
  pair_invariant w -> idle_invariant w -> idle_invariant (loadState now r w).
Proof.
  intros Hpair H. unfold loadState.
  destruct (loadSettings_frame w) as (Ht & Hs & _).
  set (w0 := loadSettings w) in *. clearbody w0.
  assert (Hstored : forall st, stored_timerState w0 = Some st ->
            isRunning st = false -> initialDuration st == timeRemaining st).
  { rewrite Hs. exact (proj2 H). }
  destruct (stored_timerState w0) as [stored | ] eqn:Hst.
  - assert (Hv : valid_pair stored) by (apply (proj2 Hpair); symmetry; exact Hs).
    cbn [timerState set_timerState].
    destruct (isRunning stored) eqn:Hrun.
    + assert (Hkeep : forall w', stored_timerState w' = stored_timerState w0 ->
                isRunning (timerState w') = true -> idle_invariant w').
      { intros w' Hsame Hr. split; [apply shows_full_running, Hr | ].
        rewrite Hsame, Hst. exact (Hstored). }
      cbn [negb andb].
      repeat match goal with
             | |- idle_invariant (if ?b then _ else _) => destruct b
             end;
        first [ apply idle_invariant_complete
              | apply Hkeep; [reflexivity | exact Hrun] ].
    + rewrite (valid_pair_idle stored Hv Hrun). cbn [negb andb].
      apply (idle_invariant_refreshed (set_timerState stored w0)).
      * exact Hrun.
      * world_simpl. apply Hstored; [reflexivity | exact Hrun].
      * world_simpl. rewrite Hst. exact Hstored.
  - apply idle_invariant_saved. world_simpl.
    apply shows_full_fresh; reflexivity.
Qed.

Lemma idle_invariant_getState now r now' r' w :
  pair_invariant w -> idle_invariant w -> idle_invariant (getState now r now' r' w).
Proof.
  intros Hpair H.
  pose proof (pair_invariant_loadState now r w Hpair) as Hpair0.
  pose proof (idle_invariant_loadState now r w Hpair H) as H0.
  unfold getState. set (w0 := loadState now r w) in *. clearbody w0.
  destruct (isRunning (timerState w0)) eqn:Hrun.
  - assert (Hkeep : forall w', stored_timerState w' = stored_timerState w0 ->
              isRunning (timerState w') = true -> idle_invariant w').
    { intros w' Hsame Hr. split; [apply shows_full_running, Hr | ].
      rewrite Hsame. exact (proj2 H0). }
    cbn [negb andb].
    repeat match goal with
           | |- idle_invariant (if ?b then _ else _) => destruct b
           end;
      first [ apply idle_invariant_complete
            | exact H0
            | apply Hkeep; [reflexivity | exact Hrun] ].
  - rewrite (valid_pair_idle _ (proj1 Hpair0) Hrun). cbn [negb andb].
    apply (idle_invariant_refreshed w0).
    + exact Hrun.
    + exact (proj2 (proj1 H0 Hrun)).
    + exact (proj2 H0).
Qed.

Lemma idle_invariant_install (s : Settings) w :
  pair_invariant w -> idle_invariant w -> idle_invariant (install_settings s w).
Proof.
  intros Hpair H. unfold install_settings. world_simpl.
  destruct (isRunning (timerState w)) eqn:Hrun.
  - cbn [negb andb]. split; [apply shows_full_running; exact Hrun | exact (proj2 H)].
  - rewrite (valid_pair_idle _ (proj1 Hpair) Hrun). cbn [negb andb].
    apply idle_invariant_saved. world_simpl.
    apply shows_full_fresh; world_simpl; [ | reflexivity].
    rewrite getSessionDuration_eq. reflexivity.
Qed.

Lemma idle_invariant_react (e : Event) w :
  pair_invariant w -> idle_invariant w -> idle_invariant (react e w).
Proof.
  intros Hpair H. destruct e; simpl.
  - apply idle_invariant_startTimer; assumption.
  - apply idle_invariant_pauseTimer, H.
  - apply idle_invariant_resetTimer.
  - apply idle_invariant_complete.
  - apply idle_invariant_tick, H.
  - apply idle_invariant_onAlarm, H.
  - apply idle_invariant_loadState; assumption.
  - apply idle_invariant_getState; assumption.
  - unfold updateSettings.
    destruct (mergeSettings _ _); [apply idle_invariant_install; assumption | exact H].
  - unfold updateDurations.
    destruct (mergeSettings _ _); [apply idle_invariant_install; assumption | exact H].
  - unfold worker_start. split.
    + world_simpl. intros _. split; reflexivity.
    + exact (proj2 H).
Qed.

Lemma idle_invariant_run (es : list Event) :
  forall w, pair_invariant w -> idle_invariant w ->
            pair_invariant (run es w) /\ idle_invariant (run es w).
Proof.
  induction es as [ | e es IH]; intros w Hpair H; [split; assumption | ].
  simpl. apply IH.
  - apply pair_invariant_react, Hpair.
  - apply idle_invariant_react; assumption.
Qed.

(** X1: in every world reached from the initial one by any sequence of
    events, a timer that is not running shows the full duration of its
    current session under the settings in force: [timeRemaining] and
    [initialDuration] both equal that duration. *)
Theorem idle_timer_shows_full_duration (es : list Event) :
  let w := run es initial_world in
  isRunning (timerState w) = false ->
  timeRemaining (timerState w)
    == getSessionDuration w (currentSession (timerState w)) /\
  initialDuration (timerState w)
    == getSessionDuration w (currentSession (timerState w)).
Proof.
  intros w Hidle. subst w.
  destruct (idle_invariant_run es initial_world pair_invariant_initial) as (_ & H & _).
  - split; [intros _; split; reflexivity | discriminate].
  - rewrite getSessionDuration_eq.
    destruct (H Hidle) as (H1 & H2). split; [exact H1 | ].
    rewrite H2. exact H1.
Qed.


(** ** The numbers stay those of a session *)

Lemma bounded_state_fresh (s : Settings) (session : SessionType) t :
  sane s ->
  timeRemaining t = duration_of s session ->
  initialDuration t = duration_of s session ->
  (0 <= cycleCount t)%Z ->
  bounded_state t.
Proof.
  intros Hs H1 H2 Hc. pose proof (duration_of_bounds s session Hs).
  unfold bounded_state. rewrite H1, H2. repeat split; try lra. exact Hc.
Qed.

Lemma bounded_state_remaining (q : Q) t t' :
  0 <= q ->
  timeRemaining t' = q ->
  initialDuration t' = initialDuration t ->
  cycleCount t' = cycleCount t ->
  bounded_state t -> bounded_state t'.
Proof.
  unfold bounded_state. intros Hq -> -> ->. intros (_ & H2 & H3).
  repeat split; try assumption; lra.
Qed.

Lemma bounded_state_same t t' :
  timeRemaining t' = timeRemaining t ->
  initialDuration t' = initialDuration t ->
  cycleCount t' = cycleCount t ->
  bounded_state t -> bounded_state t'.
Proof. unfold bounded_state. intros -> -> ->. exact (fun H => H). Qed.

Lemma Math_max_nonneg (q : Q) : 0 <= Math_max 0 q.
Proof. destruct (Math_max_cases 0 q) as [[H ->] | [H ->]]; lra. Qed.

Lemma bounded_invariant_saved w :
  sane (settings w) -> bounded_state (timerState w) -> bounded_invariant (saveState w).
Proof.
  intros Hs H. split; [exact Hs | split; [exact H | ]].
  world_simpl. intros st Hst. apply (inj Some) in Hst; subst st. exact H.
Qed.

Lemma bounded_invariant_memory w w' :
  stored_timerState w' = stored_timerState w ->
  sane (settings w') ->
  bounded_state (timerState w') ->
  bounded_invariant w -> bounded_invariant w'.
Proof.
  intros Hst Hs Hm (_ & _ & H). split; [exact Hs | split; [exact Hm | ]].
  rewrite Hst. exact H.
Qed.

Lemma bounded_invariant_complete r w :
  sane (settings w) -> (0 <= cycleCount (timerState w))%Z ->
  bounded_invariant (handleTimerComplete r w).
Proof.
  intros Hs Hc.
  assert (H : bounded_state (timerState (handleTimerComplete r w))).
  { rewrite handleTimerComplete_timerState.
    apply (bounded_state_fresh (settings w)
             (next_session (settings w) (timerState w)));
      [exact Hs | reflexivity | reflexivity | ].
    world_simpl. destruct (currentSession (timerState w)); lia. }
  split; [rewrite handleTimerComplete_settings; exact Hs | split; [exact H | ]].
  rewrite handleTimerComplete_stored. intros st Hst. apply (inj Some) in Hst; subst st. exact H.
Qed.

Lemma bounded_invariant_refreshed w :
  sane (settings w) ->
  bounded_state (timerState w) ->
  (forall st, stored_timerState w = Some st -> bounded_state st) ->
  let expectedDuration := getSessionDuration w (currentSession (timerState w)) in
  bounded_invariant
    (if negb (Qeq_bool (timeRemaining (timerState w)) expectedDuration)
     then saveState
            (upd (set_initialDuration expectedDuration)
               (upd (set_timeRemaining expectedDuration) w))
     else w).
Proof.
  intros Hs Hb Hst expectedDuration. subst expectedDuration.
  rewrite getSessionDuration_eq.
  destruct (Qeq_bool (timeRemaining (timerState w))
              (duration_of (settings w) (currentSession (timerState w))));
    cbn [negb].
  - split; [exact Hs | split; [exact Hb | exact Hst]].
  - apply bounded_invariant_saved; [exact Hs | ]. world_simpl.
    apply (bounded_state_fresh (settings w) (currentSession (timerState w)));
      [exact Hs | reflexivity | reflexivity | exact (proj2 (proj2 Hb))].
Qed.

Lemma bounded_invariant_startTimer now now' w :
  pair_invariant w -> bounded_invariant w -> bounded_invariant (startTimer now now' w).
Proof.
  intros Hpair (Hs & Hb & Hst).
  destruct (isPaused (timerState w)) eqn:Hp.
  - assert (Hrun : isRunning (timerState w) = true).
    { destruct (isRunning (timerState w)) eqn:E; [reflexivity | ].
      exfalso. apply (proj1 Hpair). split; assumption. }
    destruct (startTimer_resume now now' w Hp Hrun) as (Ht & Hsv & Hset & _).
    split; [rewrite Hset; exact Hs | split].
    + rewrite Ht. apply (bounded_state_same (timerState w)); try reflexivity. exact Hb.
    + rewrite Hsv. intros st E. apply (inj Some) in E; subst st.
      apply (bounded_state_same (timerState w)); try reflexivity. exact Hb.
  - destruct (isRunning (timerState w)) eqn:Hrun.
    + unfold startTimer. rewrite Hrun, Hp. split; [exact Hs | split; assumption].
    + destruct (startTimer_fresh now now' w Hrun Hp) as (Ht & Hsv & Hset & _).
      pose proof (loadSettings_sane w) as Hs0.
      split; [rewrite Hset; exact Hs0 | split].
      * rewrite Ht.
        apply (bounded_state_fresh (settings (loadSettings w))
                 (currentSession (timerState w)));
          [exact Hs0 | reflexivity | reflexivity | exact (proj2 (proj2 Hb))].
      * rewrite Hsv. intros st E. apply (inj Some) in E; subst st.
        apply (bounded_state_fresh (settings (loadSettings w))
                 (currentSession (timerState w)));
          [exact Hs0 | reflexivity | reflexivity | exact (proj2 (proj2 Hb))].
Qed.

Lemma bounded_invariant_pauseTimer now now' w :
  bounded_invariant w -> bounded_invariant (pauseTimer now now' w).
Proof.
  intros (Hs & Hb & Hst).
  destruct (isRunning (timerState w)) eqn:Hrun;
    [destruct (isPaused (timerState w)) eqn:Hp | ].
  - unfold pauseTimer. rewrite Hrun, Hp. split; [exact Hs | split; assumption].
  - destruct (pauseTimer_frame now now' w) as (Hset & _ & Hf).
    destruct (Hf Hrun Hp) as (Hsv & _).
    pose proof (pauseTimer_timerState now now' w Hrun Hp) as Ht. cbv zeta in Ht.
    assert (Hb' : bounded_state (timerState (pauseTimer now now' w))).
    { rewrite Ht.
      destruct (truthy_time (startTime (timerState w))
                && truthy_num (initialDuration (timerState w))).
      - apply (bounded_state_remaining
                 (calculatedRemaining (timerState w) now) (timerState w));
          try reflexivity; [apply calculatedRemaining_nonneg | exact Hb].
      - apply (bounded_state_same (timerState w)); try reflexivity. exact Hb. }
    split; [rewrite Hset; exact Hs | split; [exact Hb' | ]].
    rewrite Hsv. intros st E. apply (inj Some) in E; subst st. exact Hb'.
  - unfold pauseTimer. rewrite Hrun. split; [exact Hs | split; assumption].
Qed.

Lemma bounded_invariant_resetTimer w : bounded_invariant (resetTimer w).
Proof.
  unfold resetTimer. pose proof (loadSettings_sane w) as Hs0.
  set (w0 := loadSettings w) in *. clearbody w0.
  assert (Hb : bounded_state
                 (set_initialDuration (work (durations (settings w0)))
                    (set_timeRemaining (work (durations (settings w0)))
                       (set_currentSession WORK
                          (set_cycleCount 0
                             (set_totalPausedTime 0
                                (set_pausedAt None
                                   (set_startTime None
                                      (set_isPaused false
                                         (set_isRunning false (timerState w0))))))))))).
  { apply (bounded_state_fresh (settings w0) WORK);
      [exact Hs0 | reflexivity | reflexivity | world_simpl; lia]. }
  split; [exact Hs0 | split; [exact Hb | ]].
  world_simpl. intros st E. apply (inj Some) in E; subst st. exact Hb.
Qed.

Lemma bounded_invariant_tick now r w :
  bounded_invariant w -> bounded_invariant (tick now r w).
Proof.
  intros (Hs & Hb & Hst). unfold tick.
  destruct (negb (isRunning (timerState w)) || isPaused (timerState w)).
  - split; [exact Hs | split; [ | exact Hst]].
    apply (bounded_state_same (timerState w)); try reflexivity. exact Hb.
  - destruct (negb (Qeq_bool (timeRemaining (timerState w))
                      (calculatedRemaining (timerState w) now)));
      [ | split; [exact Hs | split; assumption]].
    match goal with |- bounded_invariant (if ?b then _ else _) => destruct b end.
    + apply bounded_invariant_complete; [exact Hs | exact (proj2 (proj2 Hb))].
    + apply bounded_invariant_saved; [exact Hs | ].
      apply (bounded_state_remaining
               (calculatedRemaining (timerState w) now) (timerState w));
        try reflexivity; [apply calculatedRemaining_nonneg | exact Hb].
Qed.

Lemma bounded_invariant_onAlarm (name : string) r w :
  bounded_invariant w -> bounded_invariant (onAlarm name r w).
Proof.
  intros H. unfold onAlarm.
  destruct (String.eqb name "pomodoro-end"); [ | exact H].
  apply bounded_invariant_complete; [exact (proj1 H) | exact (proj2 (proj2 (proj1 (proj2 H))))].
Qed.

Lemma bounded_invariant_loadState now r w :
  bounded_invariant w -> bounded_invariant (loadState now r w).
Proof.
  intros (_ & Hb & Hstored). unfold loadState.
  destruct (loadSettings_frame w) as (Ht & Hs & _).
  pose proof (loadSettings_sane w) as Hs0.
  set (w0 := loadSettings w) in *.
  rewrite <- Hs in Hstored. rewrite <- Ht in Hb. clearbody w0.
  destruct (stored_timerState w0) as [stored | ] eqn:Hst.
  - pose proof (Hstored stored eq_refl) as Hbs.
    cbn [timerState set_timerState].
    assert (Hkeep : forall w', stored_timerState w' = stored_timerState w0 ->
              settings w' = settings w0 ->
              bounded_state (timerState w') -> bounded_invariant w').
    { intros w' Hsame Hset Hb'. split; [rewrite Hset; exact Hs0 | split; [exact Hb' | ]].
      rewrite Hsame, Hst. exact Hstored. }
    destruct (isRunning stored && negb (isPaused stored)
              && truthy_time (startTime stored)).
    + match goal with |- bounded_invariant (if ?b then _ else _) => destruct b end.
      * apply bounded_invariant_complete; [exact Hs0 | exact (proj2 (proj2 Hbs))].
      * apply Hkeep; [reflexivity | reflexivity | ]. world_simpl.
        eapply (bounded_state_remaining _ stored); try reflexivity;
          [apply Math_max_nonneg | exact Hbs].
    + destruct (negb (isRunning stored) && negb (isPaused stored)).
      * apply (bounded_invariant_refreshed (set_timerState stored w0));
          [exact Hs0 | exact Hbs | world_simpl; rewrite Hst; exact Hstored].
      * apply Hkeep; [reflexivity | reflexivity | exact Hbs].
  - apply bounded_invariant_saved; [exact Hs0 | ]. world_simpl.
    apply (bounded_state_fresh (settings w0) WORK);
      [exact Hs0 | reflexivity | reflexivity | exact (proj2 (proj2 Hb))].
Qed.

Lemma bounded_invariant_getState now r now' r' w :
  bounded_invariant w -> bounded_invariant (getState now r now' r' w).
Proof.
  intros H. apply (bounded_invariant_loadState now r) in H.
  unfold getState. set (w0 := loadState now r w) in *. clearbody w0.
  destruct H as (Hs & Hb & Hst).
  destruct (isRunning (timerState w0) && negb (isPaused (timerState w0))
            && truthy_time (startTime (timerState w0))
            && truthy_num (initialDuration (timerState w0))).
  - destruct (negb (tickInterval (timerState w0)));
      [ | split; [exact Hs | split; assumption]].
    match goal with |- bounded_invariant (if ?b then _ else _) => destruct b end.
    + apply bounded_invariant_complete; [exact Hs | exact (proj2 (proj2 Hb))].
    + split; [exact Hs | split; [ | exact Hst]]. world_simpl.
      eapply (bounded_state_remaining _ (timerState w0)); try reflexivity;
        [apply Math_max_nonneg | exact Hb].
  - destruct (negb (isRunning (timerState w0)) && negb (isPaused (timerState w0))).
    + apply (bounded_invariant_refreshed w0); assumption.
    + split; [exact Hs | split; assumption].
Qed.

Lemma bounded_invariant_install (s : Settings) w :
  sane s -> bounded_invariant w -> bounded_invariant (install_settings s w).
Proof.
  intros Hsane (_ & Hb & Hst). unfold install_settings. world_simpl.
  destruct (negb (isRunning (timerState w)) && negb (isPaused (timerState w))).
  - apply bounded_invariant_saved; [exact Hsane | ]. world_simpl.
    apply (bounded_state_fresh s (currentSession (timerState w)));
      [exact Hsane | | | exact (proj2 (proj2 Hb))];
      rewrite getSessionDuration_eq; reflexivity.
  - split; [exact Hsane | split; assumption].
Qed.

Lemma bounded_invariant_react (e : Event) w :
  pair_invariant w -> bounded_invariant w -> bounded_invariant (react e w).
Proof.
  intros Hpair H. destruct e; simpl.
  - apply bounded_invariant_startTimer; assumption.
  - apply bounded_invariant_pauseTimer, H.
  - apply bounded_invariant_resetTimer.
  - apply bounded_invariant_complete;
      [exact (proj1 H) | exact (proj2 (proj2 (proj1 (proj2 H))))].
  - apply bounded_invariant_tick, H.
  - apply bounded_invariant_onAlarm, H.
  - apply bounded_invariant_loadState, H.
  - apply bounded_invariant_getState, H.
  - unfold updateSettings.
    destruct (mergeSettings _ _) as [s | ] eqn:E; [ | exact H].
    apply bounded_invariant_install; [exact (mergeSettings_sane _ _ _ E) | exact H].
  - unfold updateDurations.
    destruct (mergeSettings _ _) as [s | ] eqn:E; [ | exact H].
    apply bounded_invariant_install; [exact (mergeSettings_sane _ _ _ E) | exact H].
  - unfold worker_start.
    split; [exact DEFAULT_SETTINGS_sane | split; [ | exact (proj2 (proj2 H))]].
    world_simpl. unfold bounded_state. simpl. repeat split; discriminate.
Qed.

Lemma bounded_invariant_run (es : list Event) :
  forall w, pair_invariant w -> bounded_invariant w -> bounded_invariant (run es w).
Proof.
  induction es as [ | e es IH]; intros w Hpair H; [exact H | ].
  simpl. apply IH.
  - apply pair_invariant_react, Hpair.
  - apply bounded_invariant_react; assumption.
Qed.

Lemma bounded_invariant_initial : bounded_invariant initial_world.
Proof.
  split; [exact DEFAULT_SETTINGS_sane | split; [ | discriminate]].
  unfold bounded_state. simpl. repeat split; discriminate.
Qed.

(** X2: in every world reached from the initial one by any sequence of
    events, the settings in force are within the bounds of the sanitizer,
    the remaining time is never negative, [initialDuration] is between 60
    and 3600 seconds and [cycleCount] is never negative; the same holds
    of the saved timer state. *)
Theorem reachable_numbers_bounded (es : list Event) :
  let w := run es initial_world in
  sane (settings w) /\
  (0 <= timeRemaining (timerState w) /\
   60 <= initialDuration (timerState w) <= 3600 /\
   (0 <= cycleCount (timerState w))%Z) /\
  (forall st : TimerState,
      stored_timerState w = Some st ->
      0 <= timeRemaining st /\
      60 <= initialDuration st <= 3600 /\
      (0 <= cycleCount st)%Z).
Proof.
  exact (bounded_invariant_run es initial_world
           pair_invariant_initial bounded_invariant_initial).
Qed.

(** ** No alarm while idle or paused *)

Lemma alarm_invariant_complete r w : alarm_invariant (handleTimerComplete r w).
Proof.
  split.
  - rewrite handleTimerComplete_alarm, handleTimerComplete_timerState.
    cbn [isRunning isPaused].
    destruct (should_autostart (settings w)
                (next_session (settings w) (timerState w)));
      [intros [H | H]; discriminate H | reflexivity].
  - rewrite handleTimerComplete_stored. intros st E. apply (inj Some) in E; subst st.
    split; reflexivity.
Qed.

(** A step that keeps the alarm and the flags, and either keeps the
    saved state or saves the state it leaves. *)
Lemma alarm_invariant_flags w w' :
  alarm w' = alarm w ->
  isRunning (timerState w') = isRunning (timerState w) ->
  isPaused (timerState w') = isPaused (timerState w) ->
  stored_timerState w' = stored_timerState w
  \/ stored_timerState w' = Some (timerState w') ->
  alarm_invariant w -> alarm_invariant w'.
Proof.
  intros Ha Hr Hp Hst (H1 & H2). split.
  - rewrite Ha, Hr, Hp. exact H1.
  - destruct Hst as [Hst | Hst]; rewrite Hst.
    + rewrite Hr, Hp. exact H2.
    + intros st E. apply (inj Some) in E; subst st. split; reflexivity.
Qed.

(** A step that leaves a running, unpaused state and saves it. *)
Lemma alarm_invariant_running w :
  isRunning (timerState w) = true ->
  isPaused (timerState w) = false ->
  (forall st, stored_timerState w = Some st ->
              isRunning st = true /\ isPaused st = false) ->
  alarm_invariant w.
Proof.
  intros Hr Hp Hst. split.
  - rewrite Hr, Hp. intros [H | H]; discriminate H.
  - rewrite Hr, Hp. exact Hst.
Qed.

Ltac alarm_leaf H :=
  first
    [ apply alarm_invariant_complete
    | exact H
    | eapply alarm_invariant_flags; [ | | | | exact H];
      [world_simpl; reflexivity | world_simpl; reflexivity
      | world_simpl; reflexivity
      | first [left; world_simpl; reflexivity | right; world_simpl; reflexivity]] ].

Lemma alarm_invariant_startTimer now now' w :
  pair_invariant w -> alarm_invariant w -> alarm_invariant (startTimer now now' w).
Proof.
  intros Hpair H.
  destruct (isPaused (timerState w)) eqn:Hp.
  - assert (Hrun : isRunning (timerState w) = true).
    { destruct (isRunning (timerState w)) eqn:E; [reflexivity | ].
      exfalso. apply (proj1 Hpair). split; assumption. }
    destruct (startTimer_resume now now' w Hp Hrun) as (Ht & Hs & _).
    apply alarm_invariant_running.
    + rewrite Ht. exact Hrun.
    + rewrite Ht. reflexivity.
    + rewrite Hs. intros st E. apply (inj Some) in E; subst st. split; [exact Hrun | reflexivity].
  - destruct (isRunning (timerState w)) eqn:Hrun.
    + unfold startTimer. rewrite Hrun, Hp. exact H.
    + destruct (startTimer_fresh now now' w Hrun Hp) as (Ht & Hs & _).
      apply alarm_invariant_running.
      * rewrite Ht. reflexivity.
      * rewrite Ht. world_simpl. exact Hp.
      * rewrite Hs. intros st E. apply (inj Some) in E; subst st.
        split; [reflexivity | world_simpl; exact Hp].
Qed.

Lemma alarm_invariant_pauseTimer now now' w :
  alarm_invariant w -> alarm_invariant (pauseTimer now now' w).
Proof.
  intros H.
  destruct (isRunning (timerState w)) eqn:Hrun;
    [destruct (isPaused (timerState w)) eqn:Hp | ].
  - unfold pauseTimer. rewrite Hrun, Hp. exact H.
  - destruct (pauseTimer_frame now now' w) as (_ & _ & Hf).
    destruct (Hf Hrun Hp) as (Hs & Ha).
    split; [intros _; exact Ha | ].
    rewrite Hs. intros st E. apply (inj Some) in E; subst st. split; reflexivity.
  - unfold pauseTimer. rewrite Hrun. exact H.
Qed.

Lemma alarm_invariant_resetTimer w : alarm_invariant (resetTimer w).
Proof.
  unfold resetTimer. split; [intros _; reflexivity | ].
  world_simpl. intros st E. apply (inj Some) in E; subst st. split; reflexivity.
Qed.

Lemma alarm_invariant_tick now r w :
  alarm_invariant w -> alarm_invariant (tick now r w).
Proof.
  intros H. unfold tick.
  repeat match goal with
         | |- alarm_invariant (if ?b then _ else _) => destruct b
         end; alarm_leaf H.
Qed.

Lemma alarm_invariant_onAlarm (name : string) r w :
  alarm_invariant w -> alarm_invariant (onAlarm name r w).
Proof.
  intros H. unfold onAlarm.
  destruct (String.eqb name "pomodoro-end"); [apply alarm_invariant_complete | exact H].
Qed.

Lemma alarm_invariant_loadState now r w :
  alarm_invariant w -> alarm_invariant (loadState now r w).
Proof.
  intros H. unfold loadState.
  destruct (loadSettings_frame w) as (Ht & Hs & _ & Ha).
  assert (H0 : alarm_invariant (loadSettings w)).
  { apply (alarm_invariant_flags w); try (rewrite Ht; reflexivity);
      [exact Ha | left; exact Hs | exact H]. }
  clear H Ht Hs Ha. set (w0 := loadSettings w) in *. clearbody w0.
  destruct (stored_timerState w0) as [stored | ] eqn:Hst.
  - assert (H1 : alarm_invariant (set_timerState stored w0)).
    { destruct (proj2 H0 stored Hst) as (Hr & Hp).
      apply (alarm_invariant_flags w0); world_simpl;
        [reflexivity | exact Hr | exact Hp | left; reflexivity | exact H0]. }
    cbn [timerState set_timerState].
    repeat match goal with
           | |- alarm_invariant (if ?b then _ else _) => destruct b
           end; alarm_leaf H1.
  - alarm_leaf H0.
Qed.

Lemma alarm_invariant_getState now r now' r' w :
  alarm_invariant w -> alarm_invariant (getState now r now' r' w).
Proof.
  intros H. apply (alarm_invariant_loadState now r) in H.
  unfold getState. set (w0 := loadState now r w) in *. clearbody w0.
  repeat match goal with
         | |- alarm_invariant (if ?b then _ else _) => destruct b
         end; alarm_leaf H.
Qed.

Lemma alarm_invariant_install (s : Settings) w :
  alarm_invariant w -> alarm_invariant (install_settings s w).
Proof.
  intros H. unfold install_settings.
  match goal with
  | |- alarm_invariant (if ?b then _ else _) => destruct b
  end; alarm_leaf H.
Qed.

Lemma alarm_invariant_react (e : Event) w :
  is_restart e = false ->
  pair_invariant w -> alarm_invariant w -> alarm_invariant (react e w).
Proof.
  intros He Hpair H. destruct e; simpl; try discriminate He.
  - apply alarm_invariant_startTimer; assumption.
  - apply alarm_invariant_pauseTimer, H.
  - apply alarm_invariant_resetTimer.
  - apply alarm_invariant_complete.
  - apply alarm_invariant_tick, H.
  - apply alarm_invariant_onAlarm, H.
  - apply alarm_invariant_loadState, H.
  - apply alarm_invariant_getState, H.
  - unfold updateSettings.
    destruct (mergeSettings _ _); [apply alarm_invariant_install, H | exact H].
  - unfold updateDurations.
    destruct (mergeSettings _ _); [apply alarm_invariant_install, H | exact H].
Qed.

Lemma alarm_invariant_run (es : list Event) :
  forallb (fun e => negb (is_restart e)) es = true ->
  forall w, pair_invariant w -> alarm_invariant w -> alarm_invariant (run es w).
Proof.
  induction es as [ | e es IH]; intros Hes w Hpair H; [exact H | ].
  simpl in Hes. apply andb_prop in Hes as (He & Hes).
  apply negb_true_iff in He.
  simpl. apply IH; [exact Hes | | ].
  - apply pair_invariant_react, Hpair.
  - apply alarm_invariant_react; assumption.
Qed.

(** X3: as long as the worker is not restarted, in every world reached
    from the initial one no completion alarm is pending while the timer
    is idle or paused (pausing, resetting and a completion that does not
    auto-start all leave the alarm cleared), and the flags of the saved
    state are those of the state in memory. *)
Theorem no_alarm_while_idle_or_paused (es : list Event) :
  forallb (fun e => negb (is_restart e)) es = true ->
  let w := run es initial_world in
  (isRunning (timerState w) = false \/ isPaused (timerState w) = true ->
   alarm w = None) /\
  (forall st : TimerState,
      stored_timerState w = Some st ->
      isRunning st = isRunning (timerState w) /\
      isPaused st = isPaused (timerState w)).
Proof.
  intros Hes.
  apply (alarm_invariant_run es Hes initial_world pair_invariant_initial).
  split; [intros _; reflexivity | discriminate].
Qed.


End Reachable.

(** ** Commands *)

Section Commands.

Local Open Scope Q_scope.
Implicit Types (w : World) (r : Readings) (t : TimerState) (now : Z).

(** X4: a repeated command is ignored.  From a state with a valid pair
    of flags, a second [startTimer] right after a first changes nothing;
    a second [pauseTimer] right after a first changes nothing, from any
    state. *)
Theorem repeated_start_or_pause_ignored (n1 n1' n2 n2' : Z) w :
  valid_pair (timerState w) ->
  startTimer n2 n2' (startTimer n1 n1' w) = startTimer n1 n1' w /\
  pauseTimer n2 n2' (pauseTimer n1 n1' w) = pauseTimer n1 n1' w.
Proof.
  intros Hv. split.
  - assert (Hflags : isRunning (timerState (startTimer n1 n1' w)) = true /\
                     isPaused (timerState (startTimer n1 n1' w)) = false).
    { destruct (isPaused (timerState w)) eqn:Hp.
      - assert (Hrun : isRunning (timerState w) = true).
        { destruct (isRunning (timerState w)) eqn:E; [reflexivity | ].
          exfalso. apply Hv. split; assumption. }
        destruct (startTimer_resume n1 n1' w Hp Hrun) as (Ht & _).
        rewrite Ht. split; [exact Hrun | reflexivity].
      - destruct (isRunning (timerState w)) eqn:Hrun.
        + unfold startTimer. rewrite Hrun, Hp. split; assumption.
        + destruct (startTimer_fresh n1 n1' w Hrun Hp) as (Ht & _).
          rewrite Ht. split; [reflexivity | exact Hp]. }
    destruct Hflags as (Hr & Hp).
    unfold startTimer at 1. rewrite Hr, Hp. reflexivity.
  - destruct (isRunning (timerState w)) eqn:Hrun;
      [destruct (isPaused (timerState w)) eqn:Hp | ].
    + unfold pauseTimer. rewrite Hrun, Hp. cbn [negb orb]. rewrite Hrun, Hp. reflexivity.
    + pose proof (pauseTimer_timerState n1 n1' w Hrun Hp) as Ht. cbv zeta in Ht.
      unfold pauseTimer at 1. rewrite Ht. reflexivity.
    + unfold pauseTimer. rewrite Hrun. cbn [negb orb]. rewrite Hrun. reflexivity.
Qed.


Lemma loadSettings_Some w (s : Settings) :
  mergeSettings (stored_settings w) (stored_durations w) = Some s ->
  loadSettings w =
  set_stored_durations (js_of_durations (durations s))
    (set_stored_settings (js_of_settings s) (set_settings s w)).
Proof. intros E. unfold loadSettings. rewrite E. reflexivity. Qed.

Lemma loadSettings_None w :
  mergeSettings (stored_settings w) (stored_durations w) = None ->
  loadSettings w = set_settings DEFAULT_SETTINGS w.
Proof. intros E. unfold loadSettings. rewrite E. reflexivity. Qed.

(** Loading the settings a second time changes nothing. *)
Lemma loadSettings_fixpoint w :
  loadSettings (loadSettings w) = loadSettings w.
Proof.
  destruct (mergeSettings (stored_settings w) (stored_durations w)) as [s | ] eqn:E.
  - rewrite (loadSettings_Some w s E).
    rewrite (loadSettings_Some _ s); [reflexivity | ]. world_simpl.
    apply mergeSettings_of_sane; [exact (mergeSettings_sane _ _ _ E) | right; reflexivity].
  - rewrite (loadSettings_None w E).
    rewrite loadSettings_None; [destruct w; reflexivity | exact E].
Qed.

Lemma TimerState_ext t t' :
  isRunning t = isRunning t' -> isPaused t = isPaused t' ->
  currentSession t = currentSession t' -> timeRemaining t = timeRemaining t' ->
  cycleCount t = cycleCount t' -> startTime t = startTime t' ->
  pausedAt t = pausedAt t' -> totalPausedTime t = totalPausedTime t' ->
  initialDuration t = initialDuration t' -> tickInterval t = tickInterval t' ->
  t = t'.
Proof. destruct t, t'. simpl. intros. subst. reflexivity. Qed.

Lemma World_ext w w' :
  settings w = settings w' -> timerState w = timerState w' ->
  stored_settings w = stored_settings w' ->
  stored_durations w = stored_durations w' ->
  stored_timerState w = stored_timerState w' ->
  sessionHistory w = sessionHistory w' -> alarm w = alarm w' ->
  w = w'.
Proof. destruct w, w'. simpl. intros. subst. reflexivity. Qed.

(** X5: a reset restores the first-run state under the stored settings:
    idle, a work session at its full duration, [cycleCount] 0, no start
    or pause time and no alarm, saved as such; it keeps the session
    history and the recorded interval handle; a second reset changes
    nothing; and a tick that arrives after the reset only drops the
    interval handle, it does not count down. *)
Theorem reset_restores_first_run now r w :
  let w' := resetTimer w in
  let d := work (durations (settings w')) in
  timerState w' = {|
    isRunning := false;
    isPaused := false;
    currentSession := WORK;
    timeRemaining := d;
    cycleCount := 0;
    startTime := None;
    pausedAt := None;
    totalPausedTime := 0;
    initialDuration := d;
    tickInterval := tickInterval (timerState w)
  |} /\
  stored_timerState w' = Some (timerState w') /\
  alarm w' = None /\
  sessionHistory w' = sessionHistory w /\
  resetTimer w' = w' /\
  tick now r w' = upd (set_tickInterval false) w'.
Proof.
  intros w' d. subst w' d.
  destruct (loadSettings_frame w) as (Ht & Hst & Hh & Ha).
  split; [ | split; [ | split; [ | split; [ | split]]]].
  - unfold resetTimer. world_simpl. rewrite Ht. reflexivity.
  - unfold resetTimer. world_simpl. reflexivity.
  - unfold resetTimer. world_simpl. reflexivity.
  - unfold resetTimer. world_simpl. exact Hh.
  - destruct (mergeSettings (stored_settings w) (stored_durations w))
      as [s | ] eqn:E.
    + pose proof (mergeSettings_of_sane s _ (mergeSettings_sane _ _ _ E)
                    (or_intror eq_refl)) as E'.
      unfold resetTimer. rewrite (loadSettings_Some w s E).
      unfold loadSettings. world_simpl. rewrite E'.
      apply World_ext; world_simpl; try reflexivity.
    + unfold resetTimer. rewrite (loadSettings_None w E).
      unfold loadSettings. world_simpl. rewrite E.
      apply World_ext; world_simpl; try reflexivity.
  - unfold tick, resetTimer. world_simpl. reflexivity.
Qed.

End Commands.

(** ** The badge and the session counts *)

Section Display.

Implicit Types (w : World) (r : Readings).

(** X7: the badge shows the minutes left, rounded up: it is empty
    exactly when no time remains, and otherwise shows the number [m]
    with [60 (m - 1) < timeRemaining <= 60 m]; it is red during a work
    session and green during a break. *)
Theorem badge_shows_minutes_left w :
  match badge_text (updateBadge w) with
  | None => (timeRemaining (timerState w) <= 0)%Q
  | Some m =>
      0 < m /\
      (60 * inject_Z (m - 1) < timeRemaining (timerState w) <= 60 * inject_Z m)%Q
  end /\
  (badge_color (updateBadge w) = "#d32f2f" <-> currentSession (timerState w) = WORK) /\
  (badge_color (updateBadge w) = "#388e3c" <-> currentSession (timerState w) <> WORK).
Proof.
  unfold updateBadge, Math_ceil. cbn [badge_text badge_color].
  set (q := timeRemaining (timerState w)).
  pose proof (Qle_ceiling (q / 60)) as Hle.
  pose proof (Qceiling_lt (q / 60)) as Hlt.
  assert (Hq : (q == 60 * (q / 60))%Q) by (field; discriminate).
  split; [ | split].
  - destruct (0 <? Qceiling (q / 60)) eqn:Hpos.
    + apply Z.ltb_lt in Hpos. split; [exact Hpos | ]. lra.
    + apply Z.ltb_ge in Hpos.
      assert (inject_Z (Qceiling (q / 60)) <= 0)%Q
        by (change 0%Q with (inject_Z 0); rewrite <- Zle_Qle; exact Hpos).
      lra.
  - destruct (currentSession (timerState w)); split; intros H;
      try reflexivity; discriminate H.
  - destruct (currentSession (timerState w)); split; intros H;
      try reflexivity; try discriminate H; try discriminate; contradiction.
Qed.

Lemma getTodaySessionCount_lookup (day : string) w :
  getTodaySessionCount day w = default 0 (sessionHistory w !! day).
Proof.
  unfold getTodaySessionCount.
  destruct (sessionHistory w !! day) as [c | ]; [ | reflexivity].
  destruct (Z.eqb_spec c 0) as [-> | _]; reflexivity.
Qed.

(** X8: a completed work session adds one to the count of its day and
    changes no other day's count; a completed break changes no count. *)
Theorem work_completion_counts_today r w :
  let w' := handleTimerComplete r w in
  match currentSession (timerState w) with
  | WORK =>
      getTodaySessionCount (today r) w' = getTodaySessionCount (today r) w + 1 /\
      forall day : string,
        day <> today r -> getTodaySessionCount day w' = getTodaySessionCount day w
  | _ =>
      forall day : string, getTodaySessionCount day w' = getTodaySessionCount day w
  end.
Proof.
  intros w'. subst w'.
  destruct (currentSession (timerState w)) eqn:Hcur.
  - split.
    + rewrite !getTodaySessionCount_lookup, handleTimerComplete_history, Hcur.
      rewrite updateSessionHistory_today. reflexivity.
    + intros day Hday.
      rewrite !getTodaySessionCount_lookup, handleTimerComplete_history, Hcur.
      rewrite updateSessionHistory_other by exact Hday. reflexivity.
  - intros day.
    rewrite !getTodaySessionCount_lookup, handleTimerComplete_history, Hcur.
    reflexivity.
  - intros day.
    rewrite !getTodaySessionCount_lookup, handleTimerComplete_history, Hcur.
    reflexivity.
Qed.

(** X9: the statistics are nested.  When no recorded count is negative
    and the week and the month start no later than today, today's count
    is at most the week's and the month's, and each of these is at most
    the total; all are non-negative. *)
Theorem session_stats_nested (parse_date : string -> option Z)
    (today weekStart monthStart : Z) w :
  map_Forall (fun _ count => 0 <= count) (sessionHistory w) ->
  weekStart <= today ->
  monthStart <= today ->
  let stats := getSessionStats parse_date today weekStart monthStart w in
  0 <= stats_today stats /\
  stats_today stats <= stats_week stats <= stats_total stats /\
  stats_today stats <= stats_month stats <= stats_total stats.
Proof.
  intros Hall Hweek Hmonth stats. subst stats. unfold getSessionStats.
  revert Hall.
  apply (map_fold_weak_ind
           (fun (acc : Stats) (m : gmap string Z) =>
              map_Forall (fun _ count => 0 <= count) m ->
              0 <= stats_today acc /\
              stats_today acc <= stats_week acc <= stats_total acc /\
              stats_today acc <= stats_month acc <= stats_total acc)).
  - intros _. cbn. lia.
  - intros key count m acc Hnone IH Hall.
    apply map_Forall_insert in Hall as [Hcount Hall]; [ | exact Hnone].
    specialize (IH Hall).
    destruct (parse_date key) as [date | ]; [ | exact IH].
    cbn [stats_today stats_week stats_month stats_total].
    destruct (Z.leb_spec today date), (Z.leb_spec weekStart date),
      (Z.leb_spec monthStart date); lia.
Qed.

End Display.

End Program.

(** * Examples

    The properties above at concrete inputs.  Where the function
    depends on the engine, the example is stated for [example_engine];
    the inputs hold numbers and missing fields where a number is read,
    so no string is converted and the outcome is that of every engine. *)

Local Open Scope Q_scope.

(** C4, as stated, fails on the code: a fractional duration inside the
    bounds passes the sanitizer unchanged, so the sanitized [work]
    duration of [fractional_raw] (ninety and a half seconds) is not an
    integer.  This holds for [sanitizeSettings] and for its entry point
    [mergeSettings]. *)
Lemma fractional_duration_kept :
  let s := {|
    durations := {| work := 181 # 2; shortBreak := 300; longBreak := 900 |};
    longBreakInterval := 4;
    autoStartBreaks := false;
    autoStartWork := false;
    notifications := {| desktop := true; sound := true; soundType := "beep" |};
    tickingSound := {| enabled := false |}
  |} in
  sanitizeSettings example_engine fractional_raw = Some s /\
  mergeSettings example_engine fractional_raw JUndefined = Some s /\
  work (durations s) = 181 # 2 /\
  is_integer (work (durations s)) = false.
Proof.
  destruct (fractional_raw_sanitized example_engine) as [Hs Hm].
  split; [exact Hs | split; [exact Hm | split; reflexivity]].
Qed.

(** An input with a too small, a missing and a fractional duration: the
    first two fall back to the defaults (not to the bound 60), the third
    is kept. *)
Lemma sanitized_durations_bounded_or_default_witness :
  let raw :=
    JObj [("durations",
           JObj [("work", JNum (Fin 30));
                 ("longBreak", JNum (Fin (181 # 2)))])] in
  let s := {|
    durations := {| work := 1500; shortBreak := 300; longBreak := 181 # 2 |};
    longBreakInterval := 4;
    autoStartBreaks := false;
    autoStartWork := false;
    notifications := {| desktop := true; sound := true; soundType := "beep" |};
    tickingSound := {| enabled := false |}
  |} in
  sanitizeSettings example_engine raw = Some s /\
  60 <= work (durations s) <= 3600 /\
  (exists n : number,
      ToNumber example_engine (opt_member (prop raw "durations") "work") = Some n /\
      work (durations s) = if in_bounds 60 3600 n then finite_value n else 1500).
Proof.
  intros raw s.
  assert (H : sanitizeSettings example_engine raw = Some s) by (vm_compute; reflexivity).
  split; [exact H | ].
  destruct (sanitized_durations_bounded_or_default example_engine raw s H)
    as ((Hw & _) & Hwork & _).
  split; [exact Hw | exact Hwork].
Defined.

(** A stored object with a truthy number, an empty string, an empty
    array, 0 and [false] in its five switches. *)
Lemma notification_flags_strict_other_flags_truthy_witness :
  let raw :=
    JObj [("autoStartBreaks", JNum (Fin 1));
          ("autoStartWork", JStr "");
          ("notifications", JObj [("desktop", JNum (Fin 0)); ("sound", JBool false)]);
          ("tickingSound", JObj [("enabled", JArr [])])] in
  let s := {|
    durations := {| work := 1500; shortBreak := 300; longBreak := 900 |};
    longBreakInterval := 4;
    autoStartBreaks := true;
    autoStartWork := false;
    notifications := {| desktop := true; sound := false; soundType := "beep" |};
    tickingSound := {| enabled := true |}
  |} in
  sanitizeSettings example_engine raw = Some s /\
  (autoStartBreaks s = false <-> falsy (prop raw "autoStartBreaks")) /\
  (autoStartWork s = false <-> falsy (prop raw "autoStartWork")) /\
  (desktop (notifications s) = false <->
     opt_member (prop raw "notifications") "desktop" = JBool false).
Proof.
  intros raw s.
  assert (H : sanitizeSettings example_engine raw = Some s) by (vm_compute; reflexivity).
  split; [exact H | ].
  destruct (notification_flags_strict_other_flags_truthy example_engine raw s H)
    as (Hd & _ & Hb & Hw & _).
  split; [exact Hb | split; [exact Hw | exact Hd]].
Defined.

Lemma elapsed_time_law_recomputed_witness :
  let now := 1767258060500%Z in
  isRunning (timerState (running_world example_engine)) = true /\
  isPaused (timerState (running_world example_engine)) = false /\
  startTime (timerState (running_world example_engine)) = Some 1767258000000%Z /\
  1767258000000%Z <> 0%Z /\
  ~ initialDuration (timerState (running_world example_engine)) == 0 /\
  calculatedRemaining (timerState (running_world example_engine)) now
  == elapsed_time_law 1767258000000 0 1500 now /\
  elapsed_time_law 1767258000000 0 1500 now == 1440.
Proof.
  intros now.
  assert (Hrun : isRunning (timerState (running_world example_engine)) = true) by reflexivity.
  assert (Hp : isPaused (timerState (running_world example_engine)) = false) by reflexivity.
  assert (Hs : startTime (timerState (running_world example_engine)) = Some 1767258000000%Z)
    by reflexivity.
  assert (Hnz : 1767258000000%Z <> 0%Z) by lia.
  assert (Hd : ~ initialDuration (timerState (running_world example_engine)) == 0)
    by (intros H; vm_compute in H; discriminate H).
  repeat (split; [assumption | ]).
  split; [ | reflexivity].
  exact (proj1 (elapsed_time_law_recomputed example_engine 1767258000000 now morning
                  (running_world example_engine) Hrun Hp Hs Hnz Hd)).
Defined.



(** C9 on the code: a session is paused with 1200 of its 1500 seconds
    left and saved; the worker restarts; the first message it receives
    is the [updateSettings] of the popup with a work duration of ten
    minutes.  The timer state in memory is the initial one, so the case
    takes the timer for idle, gives it the new duration and saves it:
    the saved session is replaced by an idle timer of 600 seconds, which
    is what the next state query loads. *)
Lemma updateSettings_after_restart_replaces_session :
  let w := (interrupted_world example_engine) in
  let w' := updateSettings example_engine popup_save_request w in
  (exists st : TimerState,
      stored_timerState w = Some st /\
      isRunning st = true /\ isPaused st = true /\
      timeRemaining st == 1200 /\ initialDuration st == 1500) /\
  (exists st' : TimerState,
      stored_timerState w' = Some st' /\
      isRunning st' = false /\ isPaused st' = false /\
      timeRemaining st' == 600 /\ initialDuration st' == 600 /\
      startTime st' = None) /\
  (let t := timerState (getState example_engine 1767258400000 morning
                           1767258400000 morning w') in
   isRunning t = false /\ isPaused t = false /\
   timeRemaining t == 600 /\ initialDuration t == 600).
Proof. exact (interrupted_world_updated example_engine). Qed.


(** An idle timer after a settings update that shortens work sessions to
    ten minutes. *)
Lemma idle_timer_shows_full_duration_witness :
  let w := run example_engine [EUpdateSettings ten_minute_request] initial_world in
  isRunning (timerState w) = false /\
  timeRemaining (timerState w)
    == getSessionDuration w (currentSession (timerState w)) /\
  timeRemaining (timerState w) == 600.
Proof.
  intros w.
  assert (H : isRunning (timerState w) = false) by reflexivity.
  split; [exact H | ].
  split; [ | reflexivity].
  exact (proj1 (idle_timer_shows_full_duration example_engine
                  [EUpdateSettings ten_minute_request] H)).
Defined.

(** A session started and paused a minute later. *)
Lemma no_alarm_while_idle_or_paused_witness :
  let es := [EStart 1767258000000 1767258000000; EPause 1767258060500 1767258060501] in
  forallb (fun e => negb (is_restart e)) es = true /\
  isPaused (timerState (run example_engine es initial_world)) = true /\
  alarm (run example_engine es initial_world) = None.
Proof.
  intros es.
  assert (Hes : forallb (fun e => negb (is_restart e)) es = true) by reflexivity.
  assert (Hp : isPaused (timerState (run example_engine es initial_world)) = true)
    by reflexivity.
  split; [exact Hes | split; [exact Hp | ]].
  exact (proj1 (no_alarm_while_idle_or_paused example_engine es Hes) (or_intror Hp)).
Defined.

(** A second start half a second after the first. *)
Lemma repeated_start_or_pause_ignored_witness :
  valid_pair (timerState initial_world) /\
  startTimer example_engine 1767258000500 1767258000500
    (startTimer example_engine 1767258000000 1767258000000 initial_world)
  = startTimer example_engine 1767258000000 1767258000000 initial_world.
Proof.
  assert (Hv : valid_pair (timerState initial_world))
    by (intros [_ H]; discriminate H).
  split; [exact Hv | ].
  exact (proj1 (repeated_start_or_pause_ignored example_engine
                  1767258000000 1767258000000 1767258000500 1767258000500
                  initial_world Hv)).
Defined.

(** The running world when work sessions are shortened to ten minutes:
    the session keeps its 1500 seconds. *)
Lemma updateSettings_keeps_running_session_witness :
  let w := running_world example_engine in
  let w' := updateSettings example_engine ten_minute_request w in
  isRunning (timerState w) = true /\
  initialDuration (timerState w') = initialDuration (timerState w) /\
  timeRemaining (timerState w') = timeRemaining (timerState w) /\
  initialDuration (timerState w') == 1500 /\
  work (durations (settings w')) == 600.
Proof.
  intros w w'.
  assert (H : isRunning (timerState w) = true) by reflexivity.
  split; [exact H | ].
  destruct (updateSettings_keeps_running_session example_engine ten_minute_request w H)
    as (_ & Hi & Hr & _).
  split; [exact Hi | split; [exact Hr | ]].
  split; vm_compute; reflexivity.
Defined.

(** Three sessions recorded on Thursday 1 January 2026 and two on the
    day before, read on that Thursday: the week began on Sunday 28
    December, the month on the Thursday itself. *)
Lemma session_stats_nested_witness :
  let parse_date (key : string) :=
    if String.eqb key "Thu Jan 01 2026" then Some 1767225600000%Z
    else if String.eqb key "Wed Dec 31 2025" then Some 1767139200000%Z
    else None in
  let w :=
    set_sessionHistory
      (<["Thu Jan 01 2026"%string := 3%Z]> {["Wed Dec 31 2025"%string := 2%Z]})
      initial_world in
  let stats := getSessionStats parse_date 1767225600000 1766880000000 1767225600000 w in
  map_Forall (fun _ count => (0 <= count)%Z) (sessionHistory w) /\
  (1766880000000 <= 1767225600000)%Z /\
  (stats_today stats <= stats_week stats <= stats_total stats)%Z /\
  stats = {| stats_today := 3; stats_week := 5; stats_month := 3; stats_total := 5 |}.
Proof.
  intros parse_date w stats.
  assert (Hall : map_Forall (fun _ count => (0 <= count)%Z) (sessionHistory w)).
  { apply map_Forall_insert_2; [lia | ]. apply map_Forall_singleton. lia. }
  assert (Hweek : (1766880000000 <= 1767225600000)%Z) by lia.
  assert (Hmonth : (1767225600000 <= 1767225600000)%Z) by lia.
  split; [exact Hall | split; [exact Hweek | ]].
  split; [ | vm_compute; reflexivity].
  exact (proj1 (proj2 (session_stats_nested parse_date 1767225600000 1766880000000
                         1767225600000 w Hall Hweek Hmonth))).
Defined.
